(** * SimplePipeLine.py: the Catalyst co-processing script of NekBox

    The script is glue code over a host visualization library: everything
    it does is a call into that library, an attribute store on one of the
    library's objects, or a little Python control flow around such calls.
    The development below embeds the script as a tree of host calls (one
    node per call, the continuation receiving what the host handed back),
    gives the tree an executable semantics against an arbitrary host, and
    states the properties of the script as properties of the traces of
    host calls it can produce. *)

From Stdlib Require Import ZArith List Bool PrimFloat.
From stdpp Require Import base strings list gmap.
Import ListNotations.

Set Warnings "-inexact-float,-register-all".
Local Open Scope string_scope.
Local Open Scope list_scope.
Local Open Scope Z_scope.

(** ** Python values that the script handles *)

(** Objects of the host library are opaque to the script: it only passes
    them around, so a handle stands for each. *)
Abbreviation handle := positive.

Inductive pyval : Type :=
| VNone
| VBool (b : bool)
| VInt (z : Z)
| VFloat (f : float)
| VStr (s : string)
| VList (l : list pyval)
| VDict (d : list (string * pyval))
| VObj (h : handle)
| VFun (name : string)
| VInst (cls : string) (attrs : list (string * pyval)).

(** A raised exception: its class and what it carries. *)
Inductive exn : Type :=
| Exn (cls : string) (payload : pyval).

(** ** Host calls *)

Definition kwargs := list (string * pyval).

Inductive hostcall : Type :=
| CallFn (f : string) (args : list pyval) (kw : kwargs)
| CallMethod (self : pyval) (m : string) (args : list pyval) (kw : kwargs)
| SetAttr (obj : pyval) (attr : string) (v : pyval).

Inductive outcome : Type :=
| Returned (v : pyval)
| Raised (e : exn).

Definition event : Type := hostcall * outcome.
Definition trace := list event.

Definition calls (tr : trace) : list hostcall := map fst tr.

(** ** Programs: trees of host calls *)

(** A program returns a value, raises, or calls the host and goes on with
    what the host returned; [Try body handler k] is Python's
    [try: body / except: handler], followed by [k]. *)

Inductive prog : Type :=
| Ret (v : pyval)
| Raise (e : exn)
| Call (c : hostcall) (k : pyval -> prog)
| Try (body : prog) (handler : exn -> prog) (k : pyval -> prog).

Fixpoint bind (p : prog) (f : pyval -> prog) : prog :=
  match p with
  | Ret v => f v
  | Raise e => Raise e
  | Call c k => Call c (fun v => bind (k v) f)
  | Try b h k => Try b h (fun v => bind (k v) f)
  end.

Declare Scope py_scope.
Delimit Scope py_scope with py.
Notation "x <- c1 ;; c2" := (bind c1 (fun x => c2))
  (at level 100, c1 at next level, right associativity) : py_scope.
Notation "c1 ;; c2" := (bind c1 (fun _ => c2))
  (at level 100, right associativity) : py_scope.
Local Open Scope py_scope.

Definition call_fn (f : string) (args : list pyval) (kw : kwargs) : prog :=
  Call (CallFn f args kw) Ret.
Definition call_method (self : pyval) (m : string) (args : list pyval)
    (kw : kwargs) : prog :=
  Call (CallMethod self m args kw) Ret.
Definition set_attr (obj : pyval) (attr : string) (v : pyval) : prog :=
  Call (SetAttr obj attr v) Ret.

Inductive result : Type :=
| Ok (v : pyval)
| Err (e : exn).

Section Run.
Context {St : Type}.
Variable host : St -> hostcall -> St * outcome.

(** Running a program against the host: the calls made with what came
    back, the state the host is left in, and the value returned or the
    exception that escaped.  An exception ends the program unless a [Try]
    is around it. *)
Fixpoint run (p : prog) (s : St) : trace * St * result :=
  match p with
  | Ret v => ([], s, Ok v)
  | Raise e => ([], s, Err e)
  | Call c k =>
      match host s c with
      | (s', Returned v) =>
          let '(tr, s'', r) := run (k v) s' in ((c, Returned v) :: tr, s'', r)
      | (s', Raised e) => ([(c, Raised e)], s', Err e)
      end
  | Try b h k =>
      let '(tr1, s1, r1) := run b s in
      match r1 with
      | Ok v => let '(tr2, s2, r2) := run (k v) s1 in (tr1 ++ tr2, s2, r2)
      | Err e =>
          let '(tr2, s2, r2) := run (h e) s1 in
          match r2 with
          | Ok v => let '(tr3, s3, r3) := run (k v) s2 in
                    (tr1 ++ tr2 ++ tr3, s3, r3)
          | Err e' => (tr1 ++ tr2, s2, Err e')
          end
      end
  end.
End Run.

Definition trace_of {St} (out : trace * St * result) : trace := out.1.1.
Definition result_of {St} (out : trace * St * result) : result := out.2.

(** ** The Python the script uses around its host calls *)

(** [v == True].  [bool] is a subclass of [int], and numbers compare by
    value; anything else is not equal to [True] (an opaque host object
    compares by identity). *)
Definition py_eq_True (v : pyval) : bool :=
  match v with
  | VBool b => b
  | VInt z => z =? 1
  | VFloat f => PrimFloat.eqb f 1
  | _ => false
  end.

(** [range(v)]: the indices [0 .. v-1] for an integer (a [bool] counts as
    one), a [TypeError] for anything else. *)
Definition py_range (v : pyval) : option (list Z) :=
  match v with
  | VInt n => Some (map Z.of_nat (seq 0 (Z.to_nat n)))
  | VBool b => Some (if b then [0] else [])
  | _ => None
  end.

(** [for i in l: body] *)
Fixpoint for_each (l : list Z) (body : Z -> prog) : prog :=
  match l with
  | [] => Ret VNone
  | i :: l' => body i ;; for_each l' body
  end.

(** The module's global namespace, and the read of a global name. *)
Abbreviation globals := (gmap string pyval).

Definition get_global (g : globals) (name : string) : prog :=
  match g !! name with
  | Some v => Ret v
  | None => Raise (Exn "NameError" (VStr name))
  end.

(** ** The script *)

(** [_CreatePipeline(coprocessor, datadescription)], lines 14-94: the body
    of [class Pipeline] runs once, top to bottom; the names it binds are
    the attributes of the class, which the instance handed back exposes. *)
Definition _CreatePipeline (coprocessor datadescription : pyval) : prog :=
  call_fn "paraview.simple._DisableFirstRenderCameraReset" [] [] ;;
  renderView1 <- call_fn "CreateView" [VStr "RenderView"] [] ;;
  set_attr renderView1 "ViewSize" (VList [VInt 1546; VInt 836]) ;;
  set_attr renderView1 "AxesGrid" (VStr "GridAxes3DActor") ;;
  set_attr renderView1 "CenterOfRotation"
    (VList [VFloat 0.5; VFloat 0.5; VFloat 0.0]) ;;
  set_attr renderView1 "StereoType" (VInt 0) ;;
  set_attr renderView1 "CameraPosition"
    (VList [VFloat 0.9191636267160087; VFloat (-2.2439272781775306);
            VFloat 1.8685067216412112]) ;;
  set_attr renderView1 "CameraFocalPoint"
    (VList [VFloat 0.5000000000000001; VFloat 0.49999999999999967;
            VFloat 1.4971058460759092e-15]) ;;
  set_attr renderView1 "CameraViewUp"
    (VList [VFloat 0.949015085039894; VFloat 0.2631540862484342;
            VFloat 0.17355199583258799]) ;;
  set_attr renderView1 "CameraParallelScale" (VFloat 0.8660254037844386) ;;
  set_attr renderView1 "Background"
    (VList [VFloat 0.32; VFloat 0.34; VFloat 0.43]) ;;
  call_method coprocessor "RegisterView" [renderView1]
    [("filename", VStr "image_%t.png"); ("freq", VInt 1);
     ("fittoscreen", VInt 1); ("magnification", VInt 1);
     ("width", VInt 1546); ("height", VInt 836); ("cinema", VDict [])] ;;
  visnek3d <- call_method coprocessor "CreateProducer"
                [datadescription; VStr "input"] [] ;;
  parallelUnstructuredGridWriter1 <-
    call_fn "servermanager.writers.XMLPUnstructuredGridWriter" []
      [("Input", visnek3d)] ;;
  call_method coprocessor "RegisterWriter" [parallelUnstructuredGridWriter1]
    [("filename", VStr "filename_%t.pvtu"); ("freq", VInt 1)] ;;
  pressureLUT <- call_fn "GetColorTransferFunction" [VStr "pressure"] [] ;;
  set_attr pressureLUT "RGBPoints"
    (VList [VFloat 0.0; VFloat 0.231373; VFloat 0.298039; VFloat 0.752941;
            VFloat 5e-17; VFloat 0.865003; VFloat 0.865003; VFloat 0.865003;
            VFloat 1e-16; VFloat 0.705882; VFloat 0.0156863;
            VFloat 0.14902]) ;;
  set_attr pressureLUT "ScalarRangeInitialized" (VFloat 1.0) ;;
  pressurePWF <- call_fn "GetOpacityTransferFunction" [VStr "pressure"] [] ;;
  set_attr pressurePWF "Points"
    (VList [VFloat 0.0; VFloat 0.0; VFloat 0.5; VFloat 0.0;
            VFloat 1e-16; VFloat 1.0; VFloat 0.5; VFloat 0.0]) ;;
  set_attr pressurePWF "ScalarRangeInitialized" (VInt 1) ;;
  visnek3dDisplay <- call_fn "Show" [visnek3d; renderView1] [] ;;
  set_attr visnek3dDisplay "ColorArrayName"
    (VList [VStr "POINTS"; VStr "pressure"]) ;;
  set_attr visnek3dDisplay "LookupTable" pressureLUT ;;
  set_attr visnek3dDisplay "ScalarOpacityUnitDistance"
    (VFloat 0.01546473935329355) ;;
  call_method visnek3dDisplay "SetScalarBarVisibility"
    [renderView1; VBool true] [] ;;
  pressureLUTColorBar <- call_fn "GetScalarBar" [pressureLUT; renderView1] [] ;;
  set_attr pressureLUTColorBar "Title" (VStr "pressure") ;;
  set_attr pressureLUTColorBar "ComponentTitle" (VStr "") ;;
  Ret (VInst "Pipeline"
         [("renderView1", renderView1);
          ("visnek3d", visnek3d);
          ("parallelUnstructuredGridWriter1", parallelUnstructuredGridWriter1);
          ("pressureLUT", pressureLUT);
          ("pressurePWF", pressurePWF);
          ("visnek3dDisplay", visnek3dDisplay);
          ("pressureLUTColorBar", pressureLUTColorBar)]).

(** [CoProcessor.CreatePipeline(self, datadescription)], lines 97-98: the
    one method the script's subclass of the host's [CoProcessor] adds. *)
Definition CreatePipeline (self datadescription : pyval) : prog :=
  pipeline <- _CreatePipeline self datadescription ;;
  set_attr self "Pipeline" pipeline ;;
  Ret VNone.

(** [CreateCoProcessor()], lines 13-104.  The class [CoProcessor] it
    declares derives from the host's [coprocessing.CoProcessor] and adds
    [CreatePipeline] only, so instantiating it runs the constructor of the
    host. *)
Definition CreateCoProcessor : prog :=
  coprocessor <- call_fn "CoProcessor" [] [] ;;
  let freqs := VDict [("input", VList [VInt 1; VInt 1])] in
  call_method coprocessor "SetUpdateFrequencies" [freqs] [] ;;
  Ret coprocessor.

(** The body of the loop of [RequestDataDescription], lines 127-128. *)
Definition RequestDataDescription_loop_body (datadescription : pyval) (i : Z)
    : prog :=
  d <- call_method datadescription "GetInputDescription" [VInt i] [] ;;
  call_method d "AllFieldsOn" [] [] ;;
  d' <- call_method datadescription "GetInputDescription" [VInt i] [] ;;
  call_method d' "GenerateMeshOn" [] [] ;;
  Ret VNone.

(** [RequestDataDescription(datadescription)], lines 120-133. *)
Definition RequestDataDescription (g : globals) (datadescription : pyval)
    : prog :=
  force <- call_method datadescription "GetForceOutput" [] [] ;;
  if py_eq_True force then
    n <- call_method datadescription "GetNumberOfInputDescriptions" [] [] ;;
    match py_range n with
    | None => Raise (Exn "TypeError" n)
    | Some indices =>
        for_each indices (RequestDataDescription_loop_body datadescription) ;;
        Ret VNone
    end
  else
    coprocessor <- get_global g "coprocessor" ;;
    call_method coprocessor "LoadRequestedData" [datadescription] [] ;;
    Ret VNone.

(** [DoCoProcessing(datadescription)], lines 137-152. *)
Definition DoCoProcessing (g : globals) (datadescription : pyval) : prog :=
  coprocessor <- get_global g "coprocessor" ;;
  call_method coprocessor "UpdateProducers" [datadescription] [] ;;
  coprocessor <- get_global g "coprocessor" ;;
  call_method coprocessor "WriteData" [datadescription] [] ;;
  coprocessor <- get_global g "coprocessor" ;;
  call_method coprocessor "WriteImages" [datadescription]
    [("rescale_lookuptable", VBool false)] ;;
  coprocessor <- get_global g "coprocessor" ;;
  call_method coprocessor "DoLiveVisualization"
    [datadescription; VStr "localhost"; VInt 22222] [] ;;
  Ret VNone.

(** ** The module: its top-level statements, in source order *)

Inductive stmt : Type :=
| FromImportStar (module : string)
| FromImport (module name : string)
| Def (name : string) (params : list string)
      (body : globals -> list pyval -> prog)
| Assign (name : string) (rhs : globals -> prog)
| Expr (e : globals -> prog).

(** Binding the arguments of a call to the parameters of a [def]: a wrong
    number of arguments is a [TypeError]. *)
Definition args0 (p : prog) (args : list pyval) : prog :=
  match args with
  | [] => p
  | _ => Raise (Exn "TypeError" (VList args))
  end.

Definition args1 (f : pyval -> prog) (args : list pyval) : prog :=
  match args with
  | [a] => f a
  | _ => Raise (Exn "TypeError" (VList args))
  end.

Definition SimplePipeLine : list stmt :=
  [ FromImportStar "paraview.simple";
    FromImport "paraview" "coprocessing";
    Def "CreateCoProcessor" [] (fun _ => args0 CreateCoProcessor);
    Assign "coprocessor" (fun g =>
      get_global g "CreateCoProcessor" ;; args0 CreateCoProcessor []);
    Expr (fun g =>
      coprocessor <- get_global g "coprocessor" ;;
      call_method coprocessor "EnableLiveVisualization"
        [VBool true; VInt 1] []);
    Def "RequestDataDescription" ["datadescription"]
      (fun g => args1 (RequestDataDescription g));
    Def "DoCoProcessing" ["datadescription"]
      (fun g => args1 (DoCoProcessing g)) ].

Definition imported_modules (m : list stmt) : list string :=
  omap (fun st => match st with
                  | FromImportStar md | FromImport md _ => Some md
                  | _ => None
                  end) m.

Definition defined_functions (m : list stmt) : list (string * list string) :=
  omap (fun st => match st with
                  | Def name params _ => Some (name, params)
                  | _ => None
                  end) m.

(** The functions a caller can hand exactly one positional argument. *)
Definition unary_functions (m : list stmt) : list (string * list string) :=
  filter (fun d => length d.2 = 1%nat) (defined_functions m).

(** The body the last [def] of a name gave it. *)
Fixpoint lookup_def (m : list stmt) (name : string)
    : option (globals -> list pyval -> prog) :=
  match m with
  | [] => None
  | st :: rest =>
      match lookup_def rest name with
      | Some b => Some b
      | None =>
          match st with
          | Def n _ body => if String.eqb n name then Some body else None
          | _ => None
          end
      end
  end.

(** What the host does when it calls a callback of the imported module by
    name: read the name in the module's namespace and call what is there,
    the body of the [def] for a function of the module, the object's own
    [__call__] for anything else. *)
Definition invoke (m : list stmt) (g : globals) (name : string)
    (args : list pyval) : prog :=
  match g !! name with
  | Some (VFun f) =>
      match lookup_def m f with
      | Some body => body g args
      | None => Raise (Exn "NameError" (VStr f))
      end
  | Some v => call_method v "__call__" args []
  | None => Raise (Exn "NameError" (VStr name))
  end.

(** What the module gets from Python's module system: the namespace a
    fresh module starts with ([__name__], [__file__], [__builtins__] and
    the like), and for an [import] statement the names
    [from md import *] binds, in the order it binds them, or the exception
    the import raised; for [from md import name], the object or the
    exception.  Importing runs code of the imported module, so the state of
    the host may change. *)
Inductive import_outcome : Type :=
| Imported (bindings : list (string * pyval))
| ImportFailed (e : exn).

Record module_system (St : Type) : Type := {
  initial_namespace : gmap string pyval;
  import_star : St -> string -> St * import_outcome;
  import_name : St -> string -> string -> St * outcome
}.
Arguments initial_namespace {St} _.
Arguments import_star {St} _ _ _.
Arguments import_name {St} _ _ _ _.

(** Binding a list of names, a later one over an earlier one. *)
Fixpoint bind_all (bs : list (string * pyval)) (g : globals) : globals :=
  match bs with
  | [] => g
  | (name, v) :: rest => bind_all rest (<[name := v]> g)
  end.

Section ModuleImport.
Context {St : Type}.
Variable host : St -> hostcall -> St * outcome.
Variable mods : module_system St.

(** Running the top-level statements: an [import] binds the names the
    module system hands over, a [def] and an assignment bind a global
    name, an expression statement only has its effects, and the first
    exception, of an [import] or of a host call, ends the import of the
    module. *)
Fixpoint exec_module (body : list stmt) (g : globals) (s : St)
    : trace * St * globals * option exn :=
  match body with
  | [] => ([], s, g, None)
  | st :: rest =>
      match st with
      | FromImportStar md =>
          match import_star mods s md with
          | (s1, Imported bs) => exec_module rest (bind_all bs g) s1
          | (s1, ImportFailed e) => ([], s1, g, Some e)
          end
      | FromImport md name =>
          match import_name mods s md name with
          | (s1, Returned v) => exec_module rest (<[name := v]> g) s1
          | (s1, Raised e) => ([], s1, g, Some e)
          end
      | Def name _ _ => exec_module rest (<[name := VFun name]> g) s
      | Assign name rhs =>
          let '(tr, s1, r) := run host (rhs g) s in
          match r with
          | Ok v =>
              let '(tr', s2, g', e) := exec_module rest (<[name := v]> g) s1 in
              (tr ++ tr', s2, g', e)
          | Err e => (tr, s1, g, Some e)
          end
      | Expr e =>
          let '(tr, s1, r) := run host (e g) s in
          match r with
          | Ok _ =>
              let '(tr', s2, g', e) := exec_module rest g s1 in
              (tr ++ tr', s2, g', e)
          | Err e => (tr, s1, g, Some e)
          end
      end
  end.

Definition import_module (m : list stmt) (s : St)
    : trace * St * globals * option exn :=
  exec_module m (initial_namespace mods) s.
End ModuleImport.

Definition import_trace {St} (out : trace * St * globals * option exn)
    : trace := out.1.1.1.
Definition import_globals {St} (out : trace * St * globals * option exn)
    : globals := out.1.2.
Definition import_error {St} (out : trace * St * globals * option exn)
    : option exn := out.2.

(** ** A concrete host to run the script against *)

(** The namespace of a module before its first statement has run. *)
Definition fresh_module : globals :=
  <["__name__" := VStr "SimplePipeLine"]>
    (<["__file__" := VStr "SimplePipeLine.py"]>
       (<["__doc__" := VNone]> (<["__builtins__" := VObj 800]> ∅))).

(** A module system in which [paraview.simple] exports a handful of its
    names and [paraview] has the submodule [coprocessing]; any other
    import fails. *)
Definition demo_modules : module_system positive :=
  {| initial_namespace := fresh_module;
     import_star := fun s md =>
       if String.eqb md "paraview.simple"
       then (s, Imported [ ("paraview", VObj 900);
                           ("servermanager", VObj 901);
                           ("CreateView", VObj 902);
                           ("GetColorTransferFunction", VObj 903);
                           ("GetOpacityTransferFunction", VObj 904);
                           ("Show", VObj 905);
                           ("GetScalarBar", VObj 906) ])
       else (s, ImportFailed (Exn "ImportError" (VStr md)));
     import_name := fun s md name =>
       if String.eqb md "paraview" && String.eqb name "coprocessing"
       then (s, Returned (VObj 950))
       else (s, Raised (Exn "ImportError" (VStr name))) |}.

(** A module system without the host library. *)
Definition no_modules : module_system positive :=
  {| initial_namespace := fresh_module;
     import_star := fun s md => (s, ImportFailed (Exn "ImportError" (VStr md)));
     import_name := fun s md name =>
       (s, Raised (Exn "ImportError" (VStr name))) |}.

Record host_config : Type := {
  force_output : bool;
  n_inputs : Z;
  failing : option string
}.

(** The host keeps the next free handle.  Functions and [CreateProducer]
    allocate a handle, input description [i] is the object [1000 + i], and
    the method named by [failing], if any, raises. *)
Definition demo_host (cfg : host_config) (next : positive) (c : hostcall)
    : positive * outcome :=
  match c with
  | CallFn f _ _ => (Pos.succ next, Returned (VObj next))
  | SetAttr _ _ _ => (next, Returned VNone)
  | CallMethod _ m args _ =>
      if match failing cfg with
         | Some f => String.eqb f m
         | None => false
         end
      then (next, Raised (Exn "RuntimeError" (VStr m)))
      else if String.eqb m "GetForceOutput"
      then (next, Returned (VBool (force_output cfg)))
      else if String.eqb m "GetNumberOfInputDescriptions"
      then (next, Returned (VInt (n_inputs cfg)))
      else if String.eqb m "GetInputDescription"
      then (next, Returned (VObj (match args with
                                  | [VInt i] => Z.to_pos (1000 + i)
                                  | _ => 999%positive
                                  end)))
      else if String.eqb m "CreateProducer"
      then (Pos.succ next, Returned (VObj next))
      else (next, Returned VNone)
  end.

Definition quiet : host_config :=
  {| force_output := false; n_inputs := 2; failing := None |}.
Definition forced : host_config :=
  {| force_output := true; n_inputs := 2; failing := None |}.

Definition demo_globals : globals :=
  import_globals
    (import_module (demo_host quiet) demo_modules SimplePipeLine 1%positive).

Definition dd0 : pyval := VObj 100.
Definition cop0 : pyval := VObj 1.

(** ** Properties of programs, read off the tree *)

(** Every host call the program can make satisfies [P], whatever the host
    answers. *)
Inductive all_calls (P : hostcall -> Prop) : prog -> Prop :=
| ac_ret v : all_calls P (Ret v)
| ac_raise e : all_calls P (Raise e)
| ac_call c k : P c -> (forall v, all_calls P (k v)) -> all_calls P (Call c k)
| ac_try b h k :
    all_calls P b -> (forall e, all_calls P (h e)) ->
    (forall v, all_calls P (k v)) -> all_calls P (Try b h k).

(** The program has no [try] statement anywhere. *)
Inductive handler_free : prog -> Prop :=
| hf_ret v : handler_free (Ret v)
| hf_raise e : handler_free (Raise e)
| hf_call c k : (forall v, handler_free (k v)) -> handler_free (Call c k).

(** In a trace, an exception of the host is the last thing that happened
    and is the result, the very exception that was raised. *)
Definition propagates (tr : trace) (r : result) : Prop :=
  forall c e, In (c, Raised e) tr -> r = Err e /\ last tr = Some (c, Raised e).

Definition is_method_call (c : hostcall) : Prop :=
  exists self m args kw, c = CallMethod self m args kw.

Definition method_named (name : string) (c : hostcall) : bool :=
  match c with
  | CallMethod _ m _ _ => String.eqb m name
  | _ => false
  end.

(** The four calls of [DoCoProcessing], as the source writes them. *)
Definition DoCoProcessing_calls (coprocessor datadescription : pyval)
    : list hostcall :=
  [ CallMethod coprocessor "UpdateProducers" [datadescription] [];
    CallMethod coprocessor "WriteData" [datadescription] [];
    CallMethod coprocessor "WriteImages" [datadescription]
      [("rescale_lookuptable", VBool false)];
    CallMethod coprocessor "DoLiveVisualization"
      [datadescription; VStr "localhost"; VInt 22222] [] ].

(** The arguments of a live-visualization step, past the data description:
    the endpoint. *)
Definition live_endpoint (c : hostcall) : option (list pyval * kwargs) :=
  match c with
  | CallMethod _ m (_ :: endpoint) kw =>
      if String.eqb m "DoLiveVisualization" then Some (endpoint, kw) else None
  | CallMethod _ m [] kw =>
      if String.eqb m "DoLiveVisualization" then Some ([], kw) else None
  | _ => None
  end.

(** The trace of the loop of [RequestDataDescription] over [indices] when
    every call returns: per index, fetch the input description and switch
    all its fields on, fetch it again and switch mesh generation on. *)
Fixpoint requests_all (datadescription : pyval) (indices : list Z)
    (tr : trace) : Prop :=
  match indices with
  | [] => tr = []
  | i :: rest =>
      exists d r d' r' tr',
        tr = (CallMethod datadescription "GetInputDescription" [VInt i] [],
              Returned d)
             :: (CallMethod d "AllFieldsOn" [] [], Returned r)
             :: (CallMethod datadescription "GetInputDescription" [VInt i] [],
                 Returned d')
             :: (CallMethod d' "GenerateMeshOn" [] [], Returned r')
             :: tr'
        /\ requests_all datadescription rest tr'
  end.

(** Host calls by kind: a function of the host library or a method of one
    of its objects; what is neither is an attribute store. *)
Definition is_function (c : hostcall) : bool :=
  match c with CallFn _ _ _ => true | _ => false end.
Definition is_method (c : hostcall) : bool :=
  match c with CallMethod _ _ _ _ => true | _ => false end.

Fixpoint kwarg (name : string) (kw : kwargs) : option pyval :=
  match kw with
  | [] => None
  | (n, v) :: rest => if String.eqb n name then Some v else kwarg name rest
  end.

(** A registration with the coprocessor: any [Register...] method; what
    is registered, under which file name pattern and how often. *)
Definition registration (c : hostcall)
    : option (string * option pyval * option pyval) :=
  match c with
  | CallMethod _ m _ kw =>
      if String.prefix "Register" m
      then Some (m, kwarg "filename" kw, kwarg "freq" kw)
      else None
  | _ => None
  end.

Definition is_registration (c : hostcall) : bool :=
  match registration c with Some _ => true | None => false end.

(** The objects a pipeline instance holds: its attributes. *)
Definition pipeline_nodes (v : pyval) : list (string * pyval) :=
  match v with
  | VInst _ attrs => attrs
  | _ => []
  end.

(** The calls that make the five objects the specification lists: the
    render view, the producer, the writer and the two transfer
    functions. *)
Definition makes_listed_node (c : hostcall) : bool :=
  match c with
  | CallFn f _ _ =>
      String.eqb f "CreateView"
      || String.eqb f "servermanager.writers.XMLPUnstructuredGridWriter"
      || String.eqb f "GetColorTransferFunction"
      || String.eqb f "GetOpacityTransferFunction"
  | CallMethod _ m _ _ => String.eqb m "CreateProducer"
  | SetAttr _ _ _ => false
  end.

(** "The pipeline holds the five listed objects and no other": every
    object of every pipeline the run stored came out of one of the five
    calls above. *)
Definition only_listed_nodes (tr : trace) (self : pyval) : Prop :=
  forall v name o,
    In (SetAttr self "Pipeline" v) (calls tr) ->
    In (name, o) (pipeline_nodes v) ->
    exists c, In (c, Returned o) tr /\ makes_listed_node c = true.

(** What an observer who keeps only the calls [f] selects can see of the
    program: along every path the selected calls are the list [l], in this
    order, as far as the path goes. *)
Inductive projects {A : Type} (f : hostcall -> option A)
    : list A -> prog -> Prop :=
| pj_ret v : projects f [] (Ret v)
| pj_raise e l : projects f l (Raise e)
| pj_skip l c k :
    f c = None -> (forall v, projects f l (k v)) -> projects f l (Call c k)
| pj_emit a l c k :
    f c = Some a -> (forall v, projects f l (k v)) ->
    projects f (a :: l) (Call c k).

(** The calls of a pipeline construction in which the host handed out the
    render view [rv], the producer [prod], the writer [wr], the transfer
    functions [lut] and [pwf], the display [disp] and the scalar bar
    [bar]. *)
Definition _CreatePipeline_calls
    (coprocessor datadescription rv prod wr lut pwf disp bar : pyval)
    : list hostcall :=
  [ CallFn "paraview.simple._DisableFirstRenderCameraReset" [] [];
    CallFn "CreateView" [VStr "RenderView"] [];
    SetAttr rv "ViewSize" (VList [VInt 1546; VInt 836]);
    SetAttr rv "AxesGrid" (VStr "GridAxes3DActor");
    SetAttr rv "CenterOfRotation" (VList [VFloat 0.5; VFloat 0.5; VFloat 0.0]);
    SetAttr rv "StereoType" (VInt 0);
    SetAttr rv "CameraPosition"
      (VList [VFloat 0.9191636267160087; VFloat (-2.2439272781775306);
              VFloat 1.8685067216412112]);
    SetAttr rv "CameraFocalPoint"
      (VList [VFloat 0.5000000000000001; VFloat 0.49999999999999967;
              VFloat 1.4971058460759092e-15]);
    SetAttr rv "CameraViewUp"
      (VList [VFloat 0.949015085039894; VFloat 0.2631540862484342;
              VFloat 0.17355199583258799]);
    SetAttr rv "CameraParallelScale" (VFloat 0.8660254037844386);
    SetAttr rv "Background" (VList [VFloat 0.32; VFloat 0.34; VFloat 0.43]);
    CallMethod coprocessor "RegisterView" [rv]
      [("filename", VStr "image_%t.png"); ("freq", VInt 1);
       ("fittoscreen", VInt 1); ("magnification", VInt 1);
       ("width", VInt 1546); ("height", VInt 836); ("cinema", VDict [])];
    CallMethod coprocessor "CreateProducer"
      [datadescription; VStr "input"] [];
    CallFn "servermanager.writers.XMLPUnstructuredGridWriter" []
      [("Input", prod)];
    CallMethod coprocessor "RegisterWriter" [wr]
      [("filename", VStr "filename_%t.pvtu"); ("freq", VInt 1)];
    CallFn "GetColorTransferFunction" [VStr "pressure"] [];
    SetAttr lut "RGBPoints"
      (VList [VFloat 0.0; VFloat 0.231373; VFloat 0.298039; VFloat 0.752941;
              VFloat 5e-17; VFloat 0.865003; VFloat 0.865003; VFloat 0.865003;
              VFloat 1e-16; VFloat 0.705882; VFloat 0.0156863;
              VFloat 0.14902]);
    SetAttr lut "ScalarRangeInitialized" (VFloat 1.0);
    CallFn "GetOpacityTransferFunction" [VStr "pressure"] [];
    SetAttr pwf "Points"
      (VList [VFloat 0.0; VFloat 0.0; VFloat 0.5; VFloat 0.0;
              VFloat 1e-16; VFloat 1.0; VFloat 0.5; VFloat 0.0]);
    SetAttr pwf "ScalarRangeInitialized" (VInt 1);
    CallFn "Show" [prod; rv] [];
    SetAttr disp "ColorArrayName" (VList [VStr "POINTS"; VStr "pressure"]);
    SetAttr disp "LookupTable" lut;
    SetAttr disp "ScalarOpacityUnitDistance" (VFloat 0.01546473935329355);
    CallMethod disp "SetScalarBarVisibility" [rv; VBool true] [];
    CallFn "GetScalarBar" [lut; rv] [];
    SetAttr bar "Title" (VStr "pressure");
    SetAttr bar "ComponentTitle" (VStr "") ].

Definition Pipeline_instance (rv prod wr lut pwf disp bar : pyval) : pyval :=
  VInst "Pipeline"
    [("renderView1", rv); ("visnek3d", prod);
     ("parallelUnstructuredGridWriter1", wr);
     ("pressureLUT", lut); ("pressurePWF", pwf);
     ("visnek3dDisplay", disp); ("pressureLUTColorBar", bar)].

(** The vocabulary of the script: the functions of the host library it
    calls and the methods it calls on the library's objects. *)
Definition host_functions : list string :=
  [ "paraview.simple._DisableFirstRenderCameraReset"; "CreateView";
    "servermanager.writers.XMLPUnstructuredGridWriter";
    "GetColorTransferFunction"; "GetOpacityTransferFunction";
    "Show"; "GetScalarBar"; "CoProcessor" ].

Definition host_methods : list string :=
  [ "RegisterView"; "CreateProducer"; "RegisterWriter";
    "SetScalarBarVisibility"; "SetUpdateFrequencies";
    "EnableLiveVisualization"; "GetForceOutput";
    "GetNumberOfInputDescriptions"; "GetInputDescription"; "AllFieldsOn";
    "GenerateMeshOn"; "LoadRequestedData"; "UpdateProducers"; "WriteData";
    "WriteImages"; "DoLiveVisualization" ].

Definition host_api (c : hostcall) : bool :=
  match c with
  | CallFn f _ _ => existsb (String.eqb f) host_functions
  | CallMethod _ m _ _ => existsb (String.eqb m) host_methods
  | SetAttr _ _ _ => true
  end.



(** A handler that swallows whatever the host raises, to compare with. *)
Definition swallow (c : hostcall) : prog :=
  Try (Call c Ret) (fun _ => Ret VNone) Ret.

Definition raising : host_config :=
  {| force_output := false; n_inputs := 2; failing := Some "WriteData" |}.

(** The namespace of the module once imported: the four names its own
    statements bind, over the names [imported] that its two [import]
    statements bound, [cop] being the object the constructor of the
    coprocessor returned. *)
Definition module_namespace (imported : globals) (cop : pyval) : globals :=
  <["DoCoProcessing" := VFun "DoCoProcessing"]>
    (<["RequestDataDescription" := VFun "RequestDataDescription"]>
       (<["coprocessor" := cop]>
          (<["CreateCoProcessor" := VFun "CreateCoProcessor"]> imported))).

(** The namespace after the two [import] statements of the module, given
    the namespace the module started with and what the star import and the
    import of [coprocessing] handed over. *)
Definition imported_names (fresh : globals) (bs : list (string * pyval))
    (coprocessing : pyval) : globals :=
  <["coprocessing" := coprocessing]> (bind_all bs fresh).

(** The calls of an import in which the constructor returned [cop]. *)
Definition import_calls (cop : pyval) : list hostcall :=
  [ CallFn "CoProcessor" [] [];
    CallMethod cop "SetUpdateFrequencies"
      [VDict [("input", VList [VInt 1; VInt 1])]] [];
    CallMethod cop "EnableLiveVisualization" [VBool true; VInt 1] [] ].

(** ** Further vocabulary for the callbacks and the construction *)

(** A method call without its receiver: the method and its positional
    arguments. *)
Definition method_and_args (c : hostcall) : option (string * list pyval) :=
  match c with
  | CallMethod _ m args _ => Some (m, args)
  | _ => None
  end.

(** What the loop of [RequestDataDescription] asks about input [i]. *)
Definition requests_of (i : Z) : list (string * list pyval) :=
  [ ("GetInputDescription", [VInt i]); ("AllFieldsOn", []);
    ("GetInputDescription", [VInt i]); ("GenerateMeshOn", []) ].

(** The two branches of [RequestDataDescription], lines 126-129 and line
    133, on their own. *)
Definition RequestDataDescription_forced (datadescription : pyval) : prog :=
  n <- call_method datadescription "GetNumberOfInputDescriptions" [] [] ;;
  match py_range n with
  | None => Raise (Exn "TypeError" n)
  | Some indices =>
      for_each indices (RequestDataDescription_loop_body datadescription) ;;
      Ret VNone
  end.

Definition RequestDataDescription_load (g : globals) (datadescription : pyval)
    : prog :=
  coprocessor <- get_global g "coprocessor" ;;
  call_method coprocessor "LoadRequestedData" [datadescription] [] ;;
  Ret VNone.

(** The store [self.Pipeline = ...] of [CreatePipeline]. *)
Definition is_pipeline_store (c : hostcall) : bool :=
  match c with
  | SetAttr _ attr _ => String.eqb attr "Pipeline"
  | _ => false
  end.

(** A host that answers the methods listed in [answers] with the value
    given there and is [demo_host] otherwise. *)
Definition answering (answers : list (string * pyval)) (cfg : host_config)
    (next : positive) (c : hostcall) : positive * outcome :=
  match c with
  | CallMethod _ m _ _ =>
      match kwarg m answers with
      | Some v => (next, Returned v)
      | None => demo_host cfg next c
      end
  | _ => demo_host cfg next c
  end.

Definition no_inputs : host_config :=
  {| force_output := true; n_inputs := 0; failing := None |}.

Definition failing_view : host_config :=
  {| force_output := false; n_inputs := 2; failing := Some "RegisterView" |}.

Definition failing_live : host_config :=
  {| force_output := false; n_inputs := 2;
     failing := Some "EnableLiveVisualization" |}.

(** The import of the module ended at one of its two [import]
    statements, with the exception [e] of the module system. *)
Definition import_statement_failed {St : Type} (mods : module_system St)
    (s : St) (e : exn) : Prop :=
  (exists s1, import_star mods s "paraview.simple" = (s1, ImportFailed e))
  \/ (exists s1 bs s2,
        import_star mods s "paraview.simple" = (s1, Imported bs)
        /\ import_name mods s1 "paraview" "coprocessing" = (s2, Raised e)).

(** ** The semantics: basic facts *)

Lemma calls_app (tr1 tr2 : trace) : calls (tr1 ++ tr2) = calls tr1 ++ calls tr2.
Proof. apply List.map_app. Qed.

Section RunFacts.
Context {St : Type}.
Variable host : St -> hostcall -> St * outcome.

Lemma run_bind (p : prog) (f : pyval -> prog) (s : St) :
  run host (bind p f) s =
  let '(tr1, s1, r1) := run host p s in
  match r1 with
  | Ok v => let '(tr2, s2, r2) := run host (f v) s1 in (tr1 ++ tr2, s2, r2)
  | Err e => (tr1, s1, Err e)
  end.
Proof.
  revert s. induction p as [v|e|c k IH|b _ h _ k IH]; intros s; simpl.
  - destruct (run host (f v) s) as [[tr2 s2] r2]; reflexivity.
  - reflexivity.
  - destruct (host s c) as [s1 [v|e]]; [|reflexivity].
    rewrite IH. destruct (run host (k v) s1) as [[tr1 s2] [w|e]]; [|reflexivity].
    destruct (run host (f w) s2) as [[tr2 s3] r2]; reflexivity.
  - destruct (run host b s) as [[tr1 s1] [v|e]].
    + simpl. rewrite IH.
      destruct (run host (k v) s1) as [[tr2 s2] [w|e]]; [|reflexivity].
      destruct (run host (f w) s2) as [[tr3 s3] r3]. now rewrite app_assoc.
    + destruct (run host (h e) s1) as [[tr2 s2] [v|e']]; [|reflexivity].
      simpl. rewrite IH.
      destruct (run host (k v) s2) as [[tr3 s3] [w|e'']]; [|reflexivity].
      destruct (run host (f w) s3) as [[tr4 s4] r4]. now rewrite !app_assoc.
Qed.

Lemma run_call_inv (c : hostcall) (k : pyval -> prog) (s s' : St)
    (tr : trace) (r : result) :
  run host (Call c k) s = (tr, s', r) ->
  (exists e, host s c = (s', Raised e) /\ tr = [(c, Raised e)] /\ r = Err e)
  \/ (exists s1 v tr1, host s c = (s1, Returned v)
        /\ run host (k v) s1 = (tr1, s', r) /\ tr = (c, Returned v) :: tr1).
Proof.
  simpl. destruct (host s c) as [s1 [v|e]].
  - destruct (run host (k v) s1) as [[tr1 s2] r1] eqn:E. intros [= <- <- <-].
    right. now exists s1, v, tr1.
  - intros [= <- <- <-]. left. now exists e.
Qed.

Lemma run_call_ok (c : hostcall) (k : pyval -> prog) (s s' : St)
    (tr : trace) (w : pyval) :
  run host (Call c k) s = (tr, s', Ok w) ->
  exists s1 v tr1, host s c = (s1, Returned v)
    /\ run host (k v) s1 = (tr1, s', Ok w) /\ tr = (c, Returned v) :: tr1.
Proof.
  intros H. apply run_call_inv in H as [(e & _ & _ & [=])|H]. exact H.
Qed.

Lemma all_calls_run (P : hostcall -> Prop) (p : prog) (s : St) :
  all_calls P p -> Forall P (calls (trace_of (run host p s))).
Proof.
  intros H. revert s. induction H as [v|e|c k Hc _ IH|b h k _ IHb _ IHh _ IHk];
    intros s; simpl.
  - constructor.
  - constructor.
  - destruct (host s c) as [s1 [v|e]].
    + specialize (IH v s1). destruct (run host (k v) s1) as [[tr1 s2] r1].
      constructor; assumption.
    + repeat constructor. assumption.
  - specialize (IHb s). destruct (run host b s) as [[tr1 s1] [v|e]].
    + specialize (IHk v s1). destruct (run host (k v) s1) as [[tr2 s2] r2].
      unfold calls, trace_of in *; simpl in *. rewrite map_app.
      apply Forall_app; split; assumption.
    + specialize (IHh e s1). destruct (run host (h e) s1) as [[tr2 s2] [v|e']].
      * specialize (IHk v s2). destruct (run host (k v) s2) as [[tr3 s3] r3].
        unfold calls, trace_of in *; simpl in *. rewrite !map_app.
        repeat (apply Forall_app; split); assumption.
      * unfold calls, trace_of in *; simpl in *. rewrite map_app.
        apply Forall_app; split; assumption.
Qed.

Lemma handler_free_propagates (p : prog) (s : St) :
  handler_free p ->
  propagates (trace_of (run host p s)) (result_of (run host p s)).
Proof.
  intros H. revert s. induction H as [v|e|c k _ IH]; intros s; simpl.
  - intros c e [].
  - intros c e' [].
  - destruct (host s c) as [s1 [v|e]].
    + specialize (IH v s1). destruct (run host (k v) s1) as [[tr1 s2] r1].
      unfold trace_of, result_of in *; simpl in *.
      intros c' e' [[=]|Hin]. destruct (IH c' e' Hin) as [-> Hl].
      split; [reflexivity|]. destruct tr1; [destruct Hin|exact Hl].
    + unfold trace_of, result_of; simpl.
      intros c' e' [[= <- <-]|[]]. split; reflexivity.
Qed.
End RunFacts.

Lemma all_calls_bind (P : hostcall -> Prop) (p : prog) (f : pyval -> prog) :
  all_calls P p -> (forall v, all_calls P (f v)) -> all_calls P (bind p f).
Proof.
  intros Hp Hf. induction Hp; simpl; try constructor; auto.
Qed.

Lemma all_calls_for_each (P : hostcall -> Prop) (l : list Z)
    (body : Z -> prog) :
  (forall i, all_calls P (body i)) -> all_calls P (for_each l body).
Proof.
  intros Hb. induction l as [|i l IH]; simpl.
  - constructor.
  - apply all_calls_bind; auto.
Qed.

Lemma handler_free_bind (p : prog) (f : pyval -> prog) :
  handler_free p -> (forall v, handler_free (f v)) -> handler_free (bind p f).
Proof.
  intros Hp Hf. induction Hp; simpl; try constructor; auto.
Qed.

Lemma handler_free_for_each (l : list Z) (body : Z -> prog) :
  (forall i, handler_free (body i)) -> handler_free (for_each l body).
Proof.
  intros Hb. induction l as [|i l IH]; simpl.
  - constructor.
  - apply handler_free_bind; auto.
Qed.

(** ** The Python helpers on a few values *)

Example py_range_int : py_range (VInt 3) = Some [0; 1; 2].
Proof. reflexivity. Qed.

Example py_range_negative : py_range (VInt (-2)) = Some [].
Proof. reflexivity. Qed.

Example py_range_float : py_range (VFloat 2.0) = None.
Proof. reflexivity. Qed.

Example py_eq_True_int : py_eq_True (VInt 1) = true /\ py_eq_True (VInt 2) = false.
Proof. split; reflexivity. Qed.

Example py_eq_True_none : py_eq_True VNone = false.
Proof. reflexivity. Qed.

(** ** The two callbacks *)

Section Callbacks.
Context {St : Type}.
Variable host : St -> hostcall -> St * outcome.

(** The loop of [RequestDataDescription]: either every call returned and
    the trace is the four calls per index, or the host raised and that
    was the last call. *)
Lemma run_request_loop (dd : pyval) (indices : list Z) (s : St) :
  let out := run host (for_each indices (RequestDataDescription_loop_body dd)) s in
  match result_of out with
  | Ok v => v = VNone /\ requests_all dd indices (trace_of out)
  | Err e => exists c, last (trace_of out) = Some (c, Raised e)
  end.
Proof.
  revert s. induction indices as [|i rest IH]; intros s; simpl.
  - split; reflexivity.
  - unfold RequestDataDescription_loop_body; simpl.
    destruct (host s _) as [s1 [d|e]]; [|simpl; eauto].
    destruct (host s1 _) as [s2 [r|e]]; [|simpl; eauto].
    destruct (host s2 _) as [s3 [d'|e]]; [|simpl; eauto].
    destruct (host s3 _) as [s4 [r'|e]]; [|simpl; eauto].
    specialize (IH s4). simpl in IH.
    destruct (run host (for_each rest _) s4) as [[tr' s5] [v|e]];
      unfold trace_of, result_of in *; simpl in *.
    + destruct IH as [-> IH]. split; [reflexivity|].
      exists d, r, d', r', tr'. split; [reflexivity|exact IH].
    + destruct IH as [c IH]. exists c. destruct tr'; [discriminate|exact IH].
Qed.

Lemma run_DoCoProcessing (g : globals) (cop dd : pyval) (s : St) :
  g !! "coprocessor" = Some cop ->
  let out := run host (DoCoProcessing g dd) s in
  (result_of out = Ok VNone
   /\ calls (trace_of out) = DoCoProcessing_calls cop dd)
  \/ (exists c e k,
        result_of out = Err e
        /\ last (trace_of out) = Some (c, Raised e)
        /\ DoCoProcessing_calls cop dd = calls (trace_of out) ++ k
        /\ In (CallMethod cop "DoLiveVisualization"
                 [dd; VStr "localhost"; VInt 22222] []) (c :: k)).
Proof.
  intros Hg. unfold DoCoProcessing, get_global. rewrite Hg. simpl.
  destruct (host s _) as [s1 [v1|e]];
    [|right; eexists _, e, _; simpl; repeat split; simpl; tauto].
  destruct (host s1 _) as [s2 [v2|e]];
    [|right; eexists _, e, _; simpl; repeat split; simpl; tauto].
  destruct (host s2 _) as [s3 [v3|e]];
    [|right; eexists _, e, _; simpl; repeat split; simpl; tauto].
  destruct (host s3 _) as [s4 [v4|e]];
    [|right; eexists _, e, _; simpl; repeat split; simpl; tauto].
  left. split; reflexivity.
Qed.
End Callbacks.

(** C8.  Whatever the host and the data description, [DoCoProcessing]
    makes the four calls [UpdateProducers(datadescription)],
    [WriteData(datadescription)],
    [WriteImages(datadescription, rescale_lookuptable=False)] and
    [DoLiveVisualization(datadescription, "localhost", 22222)] on the
    global coprocessor, in this order and nothing else: the calls of every
    run are an initial part of this list, they are the whole list whenever
    the callback returns (and it then returns [None]), and the callback
    fails to return only when the last call it made raised. *)
Theorem DoCoProcessing_four_calls_in_order :
  forall (St : Type) (host : St -> hostcall -> St * outcome) (s : St)
         (g : globals) (coprocessor datadescription : pyval),
    g !! "coprocessor" = Some coprocessor ->
    let out := run host (DoCoProcessing g datadescription) s in
    calls (trace_of out)
      `prefix_of` DoCoProcessing_calls coprocessor datadescription
    /\ (forall v, result_of out = Ok v ->
          v = VNone
          /\ calls (trace_of out)
             = DoCoProcessing_calls coprocessor datadescription)
    /\ (forall e, result_of out = Err e ->
          exists c, last (trace_of out) = Some (c, Raised e)).
Proof.
  intros St host s g cop dd Hg out.
  destruct (run_DoCoProcessing host g cop dd s Hg)
    as [[Hr Hc]|(c & e & k & Hr & Hl & Hk & _)]; fold out in Hr, Hc || fold out in Hr, Hl, Hk.
  - rewrite Hr, Hc. split; [reflexivity|]. split.
    + intros v [= <-]. split; reflexivity.
    + intros e [=].
  - rewrite Hr. split; [exists k; exact Hk|]. split.
    + intros v [=].
    + intros e' [= <-]. exists c. exact Hl.
Qed.

Lemma DoCoProcessing_four_calls_in_order_witness :
  demo_globals !! "coprocessor" = Some cop0
  /\ calls (trace_of (run (demo_host quiet) (DoCoProcessing demo_globals dd0)
                       5%positive))
     = DoCoProcessing_calls cop0 dd0.
Proof.
  split; [reflexivity|].
  pose proof (DoCoProcessing_four_calls_in_order positive (demo_host quiet)
                5%positive demo_globals cop0 dd0 eq_refl) as H.
  cbv zeta in H. destruct H as (_ & H & _). apply (H VNone). reflexivity.
Defined.

(** C3.  Whatever the host and the data description, the only
    live-visualization step [DoCoProcessing] ever makes carries the
    endpoint ["localhost"], [22222] - constants of the script, the same
    for every input - and it makes that step, on the global coprocessor
    and with the data description it was given, in every run in which it
    returns. *)
Theorem DoCoProcessing_live_endpoint :
  forall (St : Type) (host : St -> hostcall -> St * outcome) (s : St)
         (g : globals) (coprocessor datadescription : pyval),
    g !! "coprocessor" = Some coprocessor ->
    let out := run host (DoCoProcessing g datadescription) s in
    omap live_endpoint (calls (trace_of out))
      `prefix_of` [([VStr "localhost"; VInt 22222], [])]
    /\ (forall v, result_of out = Ok v ->
          omap live_endpoint (calls (trace_of out))
            = [([VStr "localhost"; VInt 22222], [])]
          /\ In (CallMethod coprocessor "DoLiveVisualization"
                   [datadescription; VStr "localhost"; VInt 22222] [])
                (calls (trace_of out))).
Proof.
  intros St host s g cop dd Hg out.
  destruct (run_DoCoProcessing host g cop dd s Hg)
    as [[Hr Hc]|(c & e & k & Hr & Hl & Hk & Hin)];
    fold out in Hr, Hc || fold out in Hr, Hl, Hk.
  - rewrite Hr, Hc. split; [reflexivity|].
    intros v _. split; [reflexivity|]. simpl. tauto.
  - rewrite Hr. split; [|intros v [=]].
    exists (omap live_endpoint k).
    change [([VStr "localhost"; VInt 22222], @nil (string * pyval))]
      with (omap live_endpoint (DoCoProcessing_calls cop dd)).
    rewrite Hk. apply omap_app.
Qed.

Lemma DoCoProcessing_live_endpoint_witness :
  demo_globals !! "coprocessor" = Some cop0
  /\ In (CallMethod cop0 "DoLiveVisualization"
           [dd0; VStr "localhost"; VInt 22222] [])
        (calls (trace_of (run (demo_host quiet)
                            (DoCoProcessing demo_globals dd0) 5%positive))).
Proof.
  split; [reflexivity|].
  pose proof (DoCoProcessing_live_endpoint positive (demo_host quiet)
                5%positive demo_globals cop0 dd0 eq_refl) as H.
  cbv zeta in H. destruct H as (_ & H). apply (H VNone). reflexivity.
Defined.

Lemma all_calls_request_loop (P : hostcall -> Prop) (dd : pyval)
    (indices : list Z) :
  (forall c, method_named "GetInputDescription" c
             || method_named "AllFieldsOn" c
             || method_named "GenerateMeshOn" c = true -> P c) ->
  all_calls P (for_each indices (RequestDataDescription_loop_body dd)).
Proof.
  intros HP. apply all_calls_for_each. intros i.
  unfold RequestDataDescription_loop_body; simpl.
  repeat (constructor; [apply HP; reflexivity|intros ?]). constructor.
Qed.

(** The loop on the concrete host: two input descriptions, each fetched
    twice, all fields and the mesh requested on both. *)
Example RequestDataDescription_forced_run :
  run (demo_host forced) (RequestDataDescription demo_globals dd0) 5%positive
  = ([ (CallMethod dd0 "GetForceOutput" [] [], Returned (VBool true));
       (CallMethod dd0 "GetNumberOfInputDescriptions" [] [], Returned (VInt 2));
       (CallMethod dd0 "GetInputDescription" [VInt 0] [],
        Returned (VObj 1000));
       (CallMethod (VObj 1000) "AllFieldsOn" [] [], Returned VNone);
       (CallMethod dd0 "GetInputDescription" [VInt 0] [],
        Returned (VObj 1000));
       (CallMethod (VObj 1000) "GenerateMeshOn" [] [], Returned VNone);
       (CallMethod dd0 "GetInputDescription" [VInt 1] [],
        Returned (VObj 1001));
       (CallMethod (VObj 1001) "AllFieldsOn" [] [], Returned VNone);
       (CallMethod dd0 "GetInputDescription" [VInt 1] [],
        Returned (VObj 1001));
       (CallMethod (VObj 1001) "GenerateMeshOn" [] [], Returned VNone) ],
     5%positive, Ok VNone).
Proof. reflexivity. Qed.

(** ** Pipeline construction *)

Ltac step_ok H :=
  apply run_call_ok in H as (? & ? & ? & _ & H & ->); cbn beta in H.

Section Pipeline.
Context {St : Type}.
Variable host : St -> hostcall -> St * outcome.

(** A construction that completes: the objects the host handed out, the
    calls made, and the instance returned. *)
Lemma run_CreatePipeline_ok (cop dd : pyval) (s s' : St) (tr : trace)
    (v : pyval) :
  run host (_CreatePipeline cop dd) s = (tr, s', Ok v) ->
  exists rv prod wr lut pwf disp bar,
    v = Pipeline_instance rv prod wr lut pwf disp bar
    /\ calls tr = _CreatePipeline_calls cop dd rv prod wr lut pwf disp bar
    /\ (In (CallFn "CreateView" [VStr "RenderView"] [], Returned rv) tr
        /\ In (CallMethod cop "CreateProducer" [dd; VStr "input"] [],
               Returned prod) tr
        /\ In (CallFn "servermanager.writers.XMLPUnstructuredGridWriter" []
                 [("Input", prod)], Returned wr) tr
        /\ In (CallFn "GetColorTransferFunction" [VStr "pressure"] [],
               Returned lut) tr
        /\ In (CallFn "GetOpacityTransferFunction" [VStr "pressure"] [],
               Returned pwf) tr
        /\ In (CallFn "Show" [prod; rv] [], Returned disp) tr
        /\ In (CallFn "GetScalarBar" [lut; rv] [], Returned bar) tr).
Proof.
  intros H. unfold _CreatePipeline, call_fn, call_method, set_attr in H.
  cbn [bind] in H. do 29 step_ok H. simpl in H. injection H as <- _ <-.
  eexists _, _, _, _, _, _, _. split; [reflexivity|].
  split; [reflexivity|]. simpl. tauto.
Qed.

(** The method [CreatePipeline]: the construction, then the store of the
    instance into [self.Pipeline]. *)
Lemma run_CreatePipeline_method_ok (self dd : pyval) (s : St) (r : pyval) :
  let out := run host (CreatePipeline self dd) s in
  result_of out = Ok r ->
  exists tr0 s0 v x,
    run host (_CreatePipeline self dd) s = (tr0, s0, Ok v)
    /\ trace_of out = tr0 ++ [(SetAttr self "Pipeline" v, Returned x)].
Proof.
  intros out. subst out. unfold CreatePipeline. rewrite run_bind.
  destruct (run host (_CreatePipeline self dd) s) as [[tr0 s0] [v|e]];
    [|intros [=]].
  simpl. destruct (host s0 _) as [s1 [x|e]]; simpl; [|intros [=]].
  intros _. now exists tr0, s0, v, x.
Qed.

Lemma projects_run {A : Type} (f : hostcall -> option A) (l : list A)
    (p : prog) (s : St) :
  projects f l p ->
  let out := run host p s in
  omap f (calls (trace_of out)) `prefix_of` l
  /\ (forall v, result_of out = Ok v -> omap f (calls (trace_of out)) = l).
Proof.
  intros H. revert s. induction H as [v|e l|l c k Hc _ IH|a l c k Hc _ IH];
    intros s; simpl.
  - split; [reflexivity|]. intros _ _. reflexivity.
  - split; [apply prefix_nil|]. intros v [=].
  - destruct (host s c) as [s1 [v|e]].
    + specialize (IH v s1). simpl in IH.
      destruct (run host (k v) s1) as [[tr1 s2] r1].
      unfold trace_of, result_of in *; simpl in *. rewrite Hc. exact IH.
    + unfold trace_of, result_of; simpl. rewrite Hc.
      split; [apply prefix_nil|]. intros v [=].
  - destruct (host s c) as [s1 [v|e]].
    + specialize (IH v s1). simpl in IH.
      destruct (run host (k v) s1) as [[tr1 s2] r1].
      unfold trace_of, result_of in *; simpl in *. rewrite Hc.
      destruct IH as [IH1 IH2]. split.
      * now apply prefix_cons.
      * intros w Hw. f_equal. exact (IH2 w Hw).
    + unfold trace_of, result_of; simpl. rewrite Hc.
      split; [|intros v [=]]. apply prefix_cons, prefix_nil.
Qed.
End Pipeline.

Ltac project_calls :=
  unfold call_fn, call_method, set_attr; cbn [bind];
  repeat first
    [ apply pj_ret
    | apply pj_raise
    | apply pj_skip; [reflexivity|intros ?]
    | apply pj_emit; [reflexivity|intros ?] ].

Lemma CreatePipeline_projects_registrations (cop dd : pyval) :
  projects registration
    [ ("RegisterView", Some (VStr "image_%t.png"), Some (VInt 1));
      ("RegisterWriter", Some (VStr "filename_%t.pvtu"), Some (VInt 1)) ]
    (_CreatePipeline cop dd).
Proof. unfold _CreatePipeline. project_calls. Qed.

(** C2.  Whatever the host, the registrations [_CreatePipeline] makes with
    the coprocessor are, in order, the view under ['image_%t.png'] and the
    writer under ['filename_%t.pvtu'] (both with [freq=1]) and never a
    third one; in a construction that completes both are made, the first
    for the object [CreateView('RenderView')] returned and the second for
    the object the [XMLPUnstructuredGridWriter] constructor returned. *)
Theorem CreatePipeline_registers_view_and_writer :
  forall (St : Type) (host : St -> hostcall -> St * outcome) (s : St)
         (coprocessor datadescription : pyval),
    let out := run host (_CreatePipeline coprocessor datadescription) s in
    omap registration (calls (trace_of out))
      `prefix_of`
      [ ("RegisterView", Some (VStr "image_%t.png"), Some (VInt 1));
        ("RegisterWriter", Some (VStr "filename_%t.pvtu"), Some (VInt 1)) ]
    /\ (forall v, result_of out = Ok v ->
          exists rv prod wr,
            In (CallFn "CreateView" [VStr "RenderView"] [], Returned rv)
               (trace_of out)
            /\ In (CallFn "servermanager.writers.XMLPUnstructuredGridWriter"
                     [] [("Input", prod)], Returned wr) (trace_of out)
            /\ filter is_registration (calls (trace_of out))
               = [ CallMethod coprocessor "RegisterView" [rv]
                     [("filename", VStr "image_%t.png"); ("freq", VInt 1);
                      ("fittoscreen", VInt 1); ("magnification", VInt 1);
                      ("width", VInt 1546); ("height", VInt 836);
                      ("cinema", VDict [])];
                   CallMethod coprocessor "RegisterWriter" [wr]
                     [("filename", VStr "filename_%t.pvtu");
                      ("freq", VInt 1)] ]).
Proof.
  intros St host s cop dd out. split.
  - apply (projects_run host _ _ _ s
             (CreatePipeline_projects_registrations cop dd)).
  - subst out. intros v Hr.
    destruct (run host (_CreatePipeline cop dd) s) as [[tr s'] r] eqn:E.
    unfold trace_of, result_of in *; simpl in *. subst r.
    apply run_CreatePipeline_ok in E
      as (rv & prod & wr & lut & pwf & disp & bar & _ & Hc & Hin).
    exists rv, prod, wr. rewrite Hc.
    split; [tauto|]. split; [tauto|]. reflexivity.
Qed.

Lemma CreatePipeline_registers_view_and_writer_witness :
  result_of (run (demo_host quiet) (_CreatePipeline cop0 dd0) 2%positive)
    = Ok (Pipeline_instance (VObj 3) (VObj 4) (VObj 5) (VObj 6) (VObj 7)
            (VObj 8) (VObj 9))
  /\ omap registration
       (calls (trace_of (run (demo_host quiet) (_CreatePipeline cop0 dd0)
                           2%positive)))
     `prefix_of`
     [ ("RegisterView", Some (VStr "image_%t.png"), Some (VInt 1));
       ("RegisterWriter", Some (VStr "filename_%t.pvtu"), Some (VInt 1)) ].
Proof.
  split; [reflexivity|].
  exact (proj1 (CreatePipeline_registers_view_and_writer positive
                  (demo_host quiet) 2%positive cop0 dd0)).
Defined.

(** C4 (as the code has it).  In every construction that completes,
    [CreatePipeline] stores into [self.Pipeline] an instance that holds
    seven objects of the host: the render view [CreateView('RenderView')]
    returned, the producer [CreateProducer(datadescription, 'input')]
    returned, the writer built with that producer as its [Input], the
    colour and the opacity transfer function of ['pressure'], and also the
    display [Show(producer, view)] returned and the scalar bar
    [GetScalarBar(colour transfer function, view)] returned.  Each of these
    calls is made once; the only other function called is
    [_DisableFirstRenderCameraReset], the only other methods are the two
    registrations and [SetScalarBarVisibility], and all else is attribute
    stores on these objects. *)
Theorem CreatePipeline_builds_seven_objects :
  forall (St : Type) (host : St -> hostcall -> St * outcome) (s : St)
         (self datadescription : pyval),
    let out := run host (CreatePipeline self datadescription) s in
    forall r, result_of out = Ok r ->
      exists rv prod wr lut pwf disp bar,
        last (calls (trace_of out))
          = Some (SetAttr self "Pipeline"
                    (Pipeline_instance rv prod wr lut pwf disp bar))
        /\ filter is_function (calls (trace_of out))
           = [ CallFn "paraview.simple._DisableFirstRenderCameraReset" [] [];
               CallFn "CreateView" [VStr "RenderView"] [];
               CallFn "servermanager.writers.XMLPUnstructuredGridWriter" []
                 [("Input", prod)];
               CallFn "GetColorTransferFunction" [VStr "pressure"] [];
               CallFn "GetOpacityTransferFunction" [VStr "pressure"] [];
               CallFn "Show" [prod; rv] [];
               CallFn "GetScalarBar" [lut; rv] [] ]
        /\ filter is_method (calls (trace_of out))
           = [ CallMethod self "RegisterView" [rv]
                 [("filename", VStr "image_%t.png"); ("freq", VInt 1);
                  ("fittoscreen", VInt 1); ("magnification", VInt 1);
                  ("width", VInt 1546); ("height", VInt 836);
                  ("cinema", VDict [])];
               CallMethod self "CreateProducer"
                 [datadescription; VStr "input"] [];
               CallMethod self "RegisterWriter" [wr]
                 [("filename", VStr "filename_%t.pvtu"); ("freq", VInt 1)];
               CallMethod disp "SetScalarBarVisibility" [rv; VBool true] [] ]
        /\ In (CallFn "CreateView" [VStr "RenderView"] [], Returned rv)
              (trace_of out)
        /\ In (CallMethod self "CreateProducer"
                 [datadescription; VStr "input"] [], Returned prod)
              (trace_of out)
        /\ In (CallFn "servermanager.writers.XMLPUnstructuredGridWriter" []
                 [("Input", prod)], Returned wr) (trace_of out)
        /\ In (CallFn "GetColorTransferFunction" [VStr "pressure"] [],
               Returned lut) (trace_of out)
        /\ In (CallFn "GetOpacityTransferFunction" [VStr "pressure"] [],
               Returned pwf) (trace_of out)
        /\ In (CallFn "Show" [prod; rv] [], Returned disp) (trace_of out)
        /\ In (CallFn "GetScalarBar" [lut; rv] [], Returned bar)
              (trace_of out).
Proof.
  intros St host s self dd out r Hr.
  destruct (run_CreatePipeline_method_ok host self dd s r Hr)
    as (tr0 & s0 & v & x & E & Htr).
  fold out in Htr. rewrite Htr. clear Htr Hr.
  apply run_CreatePipeline_ok in E
    as (rv & prod & wr & lut & pwf & disp & bar & -> & Hc & Hin).
  exists rv, prod, wr, lut, pwf, disp, bar.
  rewrite calls_app, Hc.
  split; [reflexivity|]. split; [reflexivity|]. split; [reflexivity|].
  rewrite !in_app_iff. tauto.
Qed.

Lemma CreatePipeline_builds_seven_objects_witness :
  result_of (run (demo_host quiet) (CreatePipeline cop0 dd0) 2%positive)
    = Ok VNone
  /\ exists rv prod wr lut pwf disp bar,
       last (calls (trace_of (run (demo_host quiet) (CreatePipeline cop0 dd0)
                                2%positive)))
       = Some (SetAttr cop0 "Pipeline"
                 (Pipeline_instance rv prod wr lut pwf disp bar)).
Proof.
  split; [reflexivity|].
  destruct (CreatePipeline_builds_seven_objects positive (demo_host quiet)
              2%positive cop0 dd0 VNone eq_refl)
    as (rv & prod & wr & lut & pwf & disp & bar & H & _).
  now exists rv, prod, wr, lut, pwf, disp, bar.
Defined.

(** C4 as the specification words it does not hold.  On the concrete
    host the display is object 8, handed out by [Show] and by no call that
    makes a view, a producer, a writer or a transfer function, and the
    pipeline holds it: the pipeline does not consist of the five listed
    objects only. *)
Lemma CreatePipeline_not_only_listed_nodes :
  ~ only_listed_nodes
      (trace_of (run (demo_host quiet) (CreatePipeline cop0 dd0) 2%positive))
      cop0.
Proof.
  intros H.
  destruct (H (Pipeline_instance (VObj 3) (VObj 4) (VObj 5) (VObj 6)
                 (VObj 7) (VObj 8) (VObj 9))
              "visnek3dDisplay" (VObj 8)) as (c & Hin & Hc).
  - vm_compute. tauto.
  - vm_compute. tauto.
  - vm_compute in Hin.
    repeat (destruct Hin as [Hin|Hin];
            [inversion Hin; subst c; discriminate Hc|]).
    destruct Hin.
Qed.

(** ** No handler, no operation outside the host's interface *)

Lemma handler_free_RequestDataDescription (g : globals) (dd : pyval) :
  handler_free (RequestDataDescription g dd).
Proof.
  unfold RequestDataDescription, call_method. cbn [bind].
  constructor. intros force. destruct (py_eq_True force).
  - constructor. intros n. cbn [bind]. destruct (py_range n) as [indices|].
    + apply handler_free_bind; [|intros _; constructor].
      apply handler_free_for_each. intros i.
      unfold RequestDataDescription_loop_body, call_method. cbn [bind].
      repeat (constructor; intros ?).
    + constructor.
  - unfold get_global. destruct (g !! "coprocessor"); cbn [bind];
      repeat (constructor; intros ?).
Qed.

Lemma handler_free_DoCoProcessing (g : globals) (dd : pyval) :
  handler_free (DoCoProcessing g dd).
Proof.
  unfold DoCoProcessing, get_global, call_method.
  destruct (g !! "coprocessor"); cbn [bind]; repeat (constructor; intros ?).
Qed.

Ltac check_calls :=
  unfold call_fn, call_method, set_attr; cbn [bind];
  repeat first
    [ apply ac_ret
    | apply ac_raise
    | apply ac_call; [first [reflexivity | vm_compute; eauto 10]|intros ?] ].

Lemma all_calls_RequestDataDescription (P : hostcall -> Prop) (g : globals)
    (dd : pyval) :
  (forall self m args kw,
     In m ["GetForceOutput"; "GetNumberOfInputDescriptions";
           "GetInputDescription"; "AllFieldsOn"; "GenerateMeshOn"] ->
     P (CallMethod self m args kw)) ->
  (forall cop, g !! "coprocessor" = Some cop ->
     P (CallMethod cop "LoadRequestedData" [dd] [])) ->
  all_calls P (RequestDataDescription g dd).
Proof.
  intros HP HL.
  unfold RequestDataDescription, call_method. cbn [bind].
  constructor; [apply HP; simpl; tauto|].
  intros force. destruct (py_eq_True force).
  - constructor; [apply HP; simpl; tauto|].
    intros n. cbn [bind]. destruct (py_range n) as [indices|].
    + apply all_calls_bind; [|intros _; constructor].
      apply all_calls_for_each. intros i.
      unfold RequestDataDescription_loop_body, call_method. cbn [bind].
      repeat (constructor; [apply HP; simpl; tauto|intros ?]). constructor.
    + constructor.
  - unfold get_global. destruct (g !! "coprocessor") as [cop|]; cbn [bind].
    + constructor; [now apply HL|intros ?]. constructor.
    + constructor.
Qed.

Lemma all_calls_DoCoProcessing (P : hostcall -> Prop) (g : globals)
    (dd : pyval) :
  (forall cop, g !! "coprocessor" = Some cop ->
     Forall P (DoCoProcessing_calls cop dd)) ->
  all_calls P (DoCoProcessing g dd).
Proof.
  intros HP. unfold DoCoProcessing, get_global, call_method.
  destruct (g !! "coprocessor") as [cop|]; cbn [bind]; [|constructor].
  specialize (HP cop eq_refl). unfold DoCoProcessing_calls in HP.
  repeat (apply Forall_cons in HP as [? HP]).
  repeat (constructor; [assumption|intros ?]). constructor.
Qed.

Lemma all_calls_CreatePipeline (self dd : pyval) :
  all_calls (fun c => host_api c = true) (CreatePipeline self dd).
Proof.
  unfold CreatePipeline, _CreatePipeline. check_calls.
Qed.

(** C5.  [RequestDataDescription] and [DoCoProcessing] contain no [try]
    statement, every operation they perform is a method call on an object
    of the host, and in every run an exception raised by such a call is
    the last thing that happens and is, unchanged, what the callback
    raises to its caller. *)
Theorem callbacks_do_not_handle_errors :
  forall (g : globals) (datadescription : pyval),
    (handler_free (RequestDataDescription g datadescription)
     /\ all_calls is_method_call (RequestDataDescription g datadescription))
    /\ (handler_free (DoCoProcessing g datadescription)
        /\ all_calls is_method_call (DoCoProcessing g datadescription))
    /\ forall (St : Type) (host : St -> hostcall -> St * outcome) (s : St),
         propagates
           (trace_of (run host (RequestDataDescription g datadescription) s))
           (result_of (run host (RequestDataDescription g datadescription) s))
         /\ propagates
              (trace_of (run host (DoCoProcessing g datadescription) s))
              (result_of (run host (DoCoProcessing g datadescription) s)).
Proof.
  intros g dd. split; [|split].
  - split; [apply handler_free_RequestDataDescription|].
    apply all_calls_RequestDataDescription; intros; red; eauto.
  - split; [apply handler_free_DoCoProcessing|].
    apply all_calls_DoCoProcessing. intros cop _.
    repeat constructor; red; eauto.
  - intros St host s. split; apply handler_free_propagates.
    + apply handler_free_RequestDataDescription.
    + apply handler_free_DoCoProcessing.
Qed.

(** The error of the host reaches the caller of [DoCoProcessing] as it
    was raised, and the calls after the failing one are not made. *)
Example DoCoProcessing_raising_run :
  run (demo_host raising) (DoCoProcessing demo_globals dd0) 5%positive
  = ([ (CallMethod cop0 "UpdateProducers" [dd0] [], Returned VNone);
       (CallMethod cop0 "WriteData" [dd0] [],
        Raised (Exn "RuntimeError" (VStr "WriteData"))) ],
     5%positive, Err (Exn "RuntimeError" (VStr "WriteData"))).
Proof. reflexivity. Qed.

(** A [try] that swallows the error does not propagate it: the property
    is one of the callbacks, not of every program. *)
Example swallow_does_not_propagate :
  let out := run (demo_host raising)
               (swallow (CallMethod cop0 "WriteData" [dd0] [])) 5%positive in
  result_of out = Ok VNone
  /\ ~ propagates (trace_of out) (result_of out).
Proof.
  split; [reflexivity|]. intros H.
  destruct (H (CallMethod cop0 "WriteData" [dd0] [])
              (Exn "RuntimeError" (VStr "WriteData"))) as [Hr _].
  - left. reflexivity.
  - discriminate Hr.
Qed.

(** ** Importing the module *)

Lemma module_namespace_coprocessor (imported : globals) (cop : pyval) :
  module_namespace imported cop !! "coprocessor" = Some cop.
Proof. unfold module_namespace. by simplify_map_eq. Qed.

Lemma module_namespace_CreateCoProcessor (imported : globals) (cop : pyval) :
  module_namespace imported cop !! "CreateCoProcessor"
  = Some (VFun "CreateCoProcessor").
Proof. unfold module_namespace. by simplify_map_eq. Qed.

Lemma module_namespace_RequestDataDescription (imported : globals)
    (cop : pyval) :
  module_namespace imported cop !! "RequestDataDescription"
  = Some (VFun "RequestDataDescription").
Proof. unfold module_namespace. by simplify_map_eq. Qed.

Lemma module_namespace_DoCoProcessing (imported : globals) (cop : pyval) :
  module_namespace imported cop !! "DoCoProcessing"
  = Some (VFun "DoCoProcessing").
Proof. unfold module_namespace. by simplify_map_eq. Qed.

Lemma module_namespace_other (imported : globals) (cop : pyval)
    (name : string) :
  ~ In name ["CreateCoProcessor"; "coprocessor"; "RequestDataDescription";
             "DoCoProcessing"] ->
  module_namespace imported cop !! name = imported !! name.
Proof.
  intros Hn. unfold module_namespace.
  rewrite !lookup_insert_ne; [reflexivity|..];
    intros <-; apply Hn; simpl; tauto.
Qed.

Lemma invoke_RequestDataDescription (imported : globals) (cop dd : pyval) :
  invoke SimplePipeLine (module_namespace imported cop)
    "RequestDataDescription" [dd]
  = RequestDataDescription (module_namespace imported cop) dd.
Proof.
  unfold invoke. now rewrite module_namespace_RequestDataDescription.
Qed.

Lemma invoke_DoCoProcessing (imported : globals) (cop dd : pyval) :
  invoke SimplePipeLine (module_namespace imported cop) "DoCoProcessing" [dd]
  = DoCoProcessing (module_namespace imported cop) dd.
Proof.
  unfold invoke. now rewrite module_namespace_DoCoProcessing.
Qed.

Section ImportFacts.
Context {St : Type}.
Variable host : St -> hostcall -> St * outcome.
Variable mods : module_system St.

Lemma import_SimplePipeLine_inv (s : St) :
  let '(tr, _, g, e) := import_module host mods SimplePipeLine s in
  match e with
  | None =>
      exists s1 bs s2 v cop,
        import_star mods s "paraview.simple" = (s1, Imported bs)
        /\ import_name mods s1 "paraview" "coprocessing" = (s2, Returned v)
        /\ In (CallFn "CoProcessor" [] [], Returned cop) tr
        /\ calls tr = import_calls cop
        /\ g = module_namespace
                 (imported_names (initial_namespace mods) bs v) cop
  | Some e =>
      ((tr = [] /\ import_statement_failed mods s e)
       \/ exists c, last tr = Some (c, Raised e))
      /\ exists cop, calls tr `prefix_of` import_calls cop
  end.
Proof.
  unfold import_module, SimplePipeLine, CreateCoProcessor, call_fn, call_method.
  cbn [exec_module].
  destruct (import_star mods s _) as [s01 [bs|e]] eqn:Estar.
  2:{ split; [left; split; [reflexivity|left; eauto]|].
      exists VNone. now eexists. }
  destruct (import_name mods s01 _ _) as [s02 [v|e]] eqn:Ename.
  2:{ split; [left; split; [reflexivity|right; eauto]|].
      exists VNone. now eexists. }
  unfold get_global at 1. rewrite lookup_insert_eq.
  cbn [args0 bind run].
  destruct (host s02 _) as [s1 [cop|e]].
  2:{ split; [right; eauto|]. exists VNone. now eexists. }
  destruct (host s1 _) as [s2 [x|e]].
  2:{ split; [right; eauto|]. exists cop. now eexists. }
  cbn [app]. unfold get_global. rewrite lookup_insert_eq. cbn [bind run].
  destruct (host s2 _) as [s3 [y|e]].
  2:{ split; [right; eauto|]. exists cop. now eexists. }
  exists s01, bs, s02, v, cop.
  split; [reflexivity|]. split; [exact Ename|].
  split; [left; reflexivity|]. split; reflexivity.
Qed.
End ImportFacts.

Lemma Forall_prefix {A : Type} (P : A -> Prop) (l1 l2 : list A) :
  l1 `prefix_of` l2 -> Forall P l2 -> Forall P l1.
Proof.
  intros [k ->] H. apply Forall_app in H. tauto.
Qed.




(** C1.  The module defines three top-level functions:
    [CreateCoProcessor], which takes no argument, and
    [RequestDataDescription] and [DoCoProcessing], each with the single
    parameter [datadescription]; these two are all the functions a caller
    can hand a data description.  After an import that completes, the
    namespace of the module is the one it started with, then what its two
    [import] statements bound (the names of [paraview.simple] and
    [coprocessing]), with the four names of the module's own on top: the
    three functions and [coprocessor]; every other name is as the imports
    left it.  Called with a data description,
    the two callbacks run their bodies and [CreateCoProcessor] is a
    [TypeError]. *)
Theorem module_defines_the_two_callbacks :
  defined_functions SimplePipeLine
  = [ ("CreateCoProcessor", []);
      ("RequestDataDescription", ["datadescription"]);
      ("DoCoProcessing", ["datadescription"]) ]
  /\ unary_functions SimplePipeLine
     = [ ("RequestDataDescription", ["datadescription"]);
         ("DoCoProcessing", ["datadescription"]) ]
  /\ forall (St : Type) (host : St -> hostcall -> St * outcome)
            (mods : module_system St) (s : St),
       let g := import_globals (import_module host mods SimplePipeLine s) in
       import_error (import_module host mods SimplePipeLine s) = None ->
       (exists s1 bs s2 coprocessing cop,
          import_star mods s "paraview.simple" = (s1, Imported bs)
          /\ import_name mods s1 "paraview" "coprocessing"
             = (s2, Returned coprocessing)
          /\ g = <["DoCoProcessing" := VFun "DoCoProcessing"]>
                   (<["RequestDataDescription" :=
                        VFun "RequestDataDescription"]>
                      (<["coprocessor" := cop]>
                         (<["CreateCoProcessor" := VFun "CreateCoProcessor"]>
                            (<["coprocessing" := coprocessing]>
                               (bind_all bs (initial_namespace mods))))))
          /\ forall name,
               ~ In name ["CreateCoProcessor"; "coprocessor";
                          "RequestDataDescription"; "DoCoProcessing"] ->
               g !! name
               = (<["coprocessing" := coprocessing]>
                    (bind_all bs (initial_namespace mods))) !! name)
       /\ g !! "CreateCoProcessor" = Some (VFun "CreateCoProcessor")
       /\ g !! "RequestDataDescription" = Some (VFun "RequestDataDescription")
       /\ g !! "DoCoProcessing" = Some (VFun "DoCoProcessing")
       /\ forall datadescription,
            invoke SimplePipeLine g "RequestDataDescription" [datadescription]
              = RequestDataDescription g datadescription
            /\ invoke SimplePipeLine g "DoCoProcessing" [datadescription]
               = DoCoProcessing g datadescription
            /\ invoke SimplePipeLine g "CreateCoProcessor" [datadescription]
               = Raise (Exn "TypeError" (VList [datadescription])).
Proof.
  split; [reflexivity|]. split; [reflexivity|].
  intros St host mods s g He. subst g.
  pose proof (import_SimplePipeLine_inv host mods s) as H.
  destruct (import_module host mods SimplePipeLine s) as [[[tr s1] g] e].
  unfold import_error in He; simpl in He. subst e.
  destruct H as (s01 & bs & s02 & v & cop & Hstar & Hname & _ & _ & ->).
  unfold import_globals; cbn [fst snd].
  split.
  { exists s01, bs, s02, v, cop. split; [exact Hstar|]. split; [exact Hname|].
    split; [reflexivity|]. intros name Hn.
    apply (module_namespace_other
             (imported_names (initial_namespace mods) bs v) cop name Hn). }
  split; [apply module_namespace_CreateCoProcessor|].
  split; [apply module_namespace_RequestDataDescription|].
  split; [apply module_namespace_DoCoProcessing|].
  intros dd. split; [apply invoke_RequestDataDescription|].
  split; [apply invoke_DoCoProcessing|].
  unfold invoke. now rewrite module_namespace_CreateCoProcessor.
Qed.

Lemma module_defines_the_two_callbacks_witness :
  import_error (import_module (demo_host quiet) demo_modules SimplePipeLine
                  1%positive)
    = None
  /\ invoke SimplePipeLine demo_globals "DoCoProcessing" [dd0]
     = DoCoProcessing demo_globals dd0.
Proof.
  split; [reflexivity|].
  destruct module_defines_the_two_callbacks as (_ & _ & H).
  destruct (H positive (demo_host quiet) demo_modules 1%positive eq_refl)
    as (_ & _ & _ & _ & Hi).
  exact (proj1 (proj2 (Hi dd0))).
Defined.

(** The namespace on the concrete host: the names a module starts with,
    the names the star import bound, [coprocessing], and the four names of
    the module. *)
Example demo_globals_names :
  dom demo_globals
  = ({[ "__name__"; "__file__"; "__doc__"; "__builtins__";
        "paraview"; "servermanager"; "CreateView";
        "GetColorTransferFunction"; "GetOpacityTransferFunction"; "Show";
        "GetScalarBar"; "coprocessing"; "CreateCoProcessor"; "coprocessor";
        "RequestDataDescription"; "DoCoProcessing" ]} : gset string).
Proof. vm_compute. reflexivity. Qed.

(** C6.  The module imports the host library and nothing else, and every
    operation of every run of its import, of the pipeline construction and
    of the two callbacks is a call of one of the functions of the host
    library listed in [host_functions], a call of one of the methods
    listed in [host_methods] on an object of the host, or an attribute
    store on such an object: there is no operation of the script's own that
    takes a lock, starts a thread or a process, or schedules work. *)
Theorem script_only_calls_the_host_library :
  imported_modules SimplePipeLine = ["paraview.simple"; "paraview"]
  /\ forall (St : Type) (host : St -> hostcall -> St * outcome)
            (mods : module_system St) (s : St)
            (g : globals) (self datadescription : pyval),
       Forall (fun c => host_api c = true)
         (calls (import_trace (import_module host mods SimplePipeLine s)))
       /\ Forall (fun c => host_api c = true)
            (calls (trace_of (run host (CreatePipeline self datadescription) s)))
       /\ Forall (fun c => host_api c = true)
            (calls (trace_of
               (run host (RequestDataDescription g datadescription) s)))
       /\ Forall (fun c => host_api c = true)
            (calls (trace_of (run host (DoCoProcessing g datadescription) s))).
Proof.
  split; [reflexivity|]. intros St host mods s g self dd. repeat split.
  - pose proof (import_SimplePipeLine_inv host mods s) as H.
    destruct (import_module host mods SimplePipeLine s)
      as [[[tr s1] g'] [e|]]; unfold import_trace; simpl.
    + destruct H as (_ & cop & Hp). apply (Forall_prefix _ _ _ Hp).
      repeat constructor.
    + destruct H as (_ & _ & _ & _ & cop & _ & _ & _ & -> & _).
      repeat constructor.
  - apply all_calls_run, all_calls_CreatePipeline.
  - apply all_calls_run, all_calls_RequestDataDescription.
    + intros self' m args kw Hm. simpl in Hm.
      decompose [or] Hm; subst; tauto.
    + reflexivity.
  - apply all_calls_run, all_calls_DoCoProcessing.
    intros cop _. repeat constructor.
Qed.

(** ** Further properties of [RequestDataDescription] *)

Section MoreCallbacks.
Context {St : Type}.
Variable host : St -> hostcall -> St * outcome.

(** After [GetForceOutput()] answered [v], the callback goes on with one
    of its two branches, chosen by [v == True]. *)
Lemma run_RequestDataDescription_branch (g : globals) (dd v : pyval)
    (s s1 : St) :
  host s (CallMethod dd "GetForceOutput" [] []) = (s1, Returned v) ->
  run host (RequestDataDescription g dd) s
  = let '(tr, s', r) :=
      run host (if py_eq_True v then RequestDataDescription_forced dd
                else RequestDataDescription_load g dd) s1 in
    ((CallMethod dd "GetForceOutput" [] [], Returned v) :: tr, s', r).
Proof.
  intros Hf. unfold RequestDataDescription, call_method. cbn [bind run].
  rewrite Hf. destruct (py_eq_True v); reflexivity.
Qed.

Lemma projects_bind {A : Type} (f : hostcall -> option A) (l1 l2 : list A)
    (p : prog) (k : pyval -> prog) :
  projects f l1 p -> (forall v, projects f l2 (k v)) ->
  projects f (l1 ++ l2) (bind p k).
Proof.
  intros Hp Hk. induction Hp as [v|e l|l c k' Hc _ IH|a l c k' Hc _ IH];
    cbn [bind app].
  - apply Hk.
  - apply pj_raise.
  - apply pj_skip; [exact Hc|exact IH].
  - apply pj_emit; [exact Hc|exact IH].
Qed.

Lemma projects_for_each {A : Type} (f : hostcall -> option A)
    (pat : Z -> list A) (body : Z -> prog) (l : list Z) :
  (forall i, projects f (pat i) (body i)) ->
  projects f (flat_map pat l) (for_each l body).
Proof.
  intros Hb. induction l as [|i l IH]; cbn [flat_map for_each].
  - apply pj_ret.
  - apply projects_bind; [apply Hb|intros _; exact IH].
Qed.

Lemma projects_request_loop (dd : pyval) (indices : list Z) :
  projects method_and_args (flat_map requests_of indices)
    (for_each indices (RequestDataDescription_loop_body dd)).
Proof.
  apply projects_for_each. intros i.
  unfold RequestDataDescription_loop_body, requests_of. project_calls.
Qed.
End MoreCallbacks.

Lemma omap_calls_cons {A : Type} (f : hostcall -> option A) (c : hostcall)
    (o : outcome) (tr : trace) (a : A) :
  f c = Some a -> omap f (calls ((c, o) :: tr)) = a :: omap f (calls tr).
Proof.
  intros H. unfold calls. simpl. now rewrite H.
Qed.

Lemma length_requests (l : list Z) :
  length (flat_map requests_of l) = (4 * length l)%nat.
Proof.
  induction l as [|i l IH]; [reflexivity|].
  cbn [flat_map requests_of app length]. rewrite IH. lia.
Qed.

(** X2.  When output is forced and the host reports [n] input
    descriptions, the method calls of [RequestDataDescription] are, in
    this order, [GetForceOutput()], [GetNumberOfInputDescriptions()] and
    then for [i = 0 .. n-1] the four calls [GetInputDescription(i)],
    [AllFieldsOn()], [GetInputDescription(i)], [GenerateMeshOn()]: every
    run makes an initial part of this sequence, also one a host exception
    cuts short, and a run that returns makes all [2 + 4 n] of them. *)
Theorem RequestDataDescription_forced_sequence :
  forall (St : Type) (host : St -> hostcall -> St * outcome) (s s1 s2 : St)
         (g : globals) (datadescription : pyval) (n : Z),
    host s (CallMethod datadescription "GetForceOutput" [] [])
      = (s1, Returned (VBool true)) ->
    host s1 (CallMethod datadescription "GetNumberOfInputDescriptions" [] [])
      = (s2, Returned (VInt n)) ->
    let out := run host (RequestDataDescription g datadescription) s in
    let expected :=
      ("GetForceOutput", []) :: ("GetNumberOfInputDescriptions", [])
      :: flat_map requests_of (map Z.of_nat (seq 0 (Z.to_nat n))) in
    omap method_and_args (calls (trace_of out)) `prefix_of` expected
    /\ (forall v, result_of out = Ok v ->
          omap method_and_args (calls (trace_of out)) = expected
          /\ length (omap method_and_args (calls (trace_of out)))
             = (2 + 4 * Z.to_nat n)%nat).
Proof.
  intros St host s s1 s2 g dd n Hf Hn out expected. subst out expected.
  rewrite (run_RequestDataDescription_branch host g dd _ s s1 Hf).
  cbn [py_eq_True].
  unfold RequestDataDescription_forced, call_method. cbn [bind run].
  rewrite Hn. cbn [py_range].
  set (indices := map Z.of_nat (seq 0 (Z.to_nat n))).
  assert (Hlen : length (flat_map requests_of indices)
                 = (4 * Z.to_nat n)%nat).
  { subst indices. now rewrite length_requests, length_map, length_seq. }
  pose proof (projects_run host method_and_args _ _ s2
                (projects_bind method_and_args _ []
                   _ (fun _ => Ret VNone)
                   (projects_request_loop dd indices)
                   (fun _ => pj_ret method_and_args VNone))) as [Hp Hok].
  rewrite app_nil_r in Hp, Hok.
  destruct (run host (_ ;; Ret VNone) s2) as [[tr s3] r].
  unfold trace_of, result_of in *; cbn [fst snd] in *.
  erewrite !omap_calls_cons by reflexivity.
  split.
  - now do 2 apply prefix_cons.
  - intros v ->. rewrite (Hok v eq_refl). split; [reflexivity|].
    cbn [length]. rewrite Hlen. reflexivity.
Qed.

Lemma RequestDataDescription_forced_sequence_witness :
  (demo_host forced 5%positive (CallMethod dd0 "GetForceOutput" [] [])
   = (5%positive, Returned (VBool true))
   /\ demo_host forced 5%positive
        (CallMethod dd0 "GetNumberOfInputDescriptions" [] [])
      = (5%positive, Returned (VInt 2)))
  /\ omap method_and_args
       (calls (trace_of (run (demo_host forced)
                           (RequestDataDescription demo_globals dd0)
                           5%positive)))
     = ("GetForceOutput", []) :: ("GetNumberOfInputDescriptions", [])
       :: requests_of 0 ++ requests_of 1.
Proof.
  split; [split; reflexivity|].
  pose proof (RequestDataDescription_forced_sequence positive
                (demo_host forced) 5%positive 5%positive 5%positive
                demo_globals dd0 2 eq_refl eq_refl) as H.
  cbv zeta in H. destruct H as [_ H]. exact (proj1 (H VNone eq_refl)).
Defined.

(** X3.  When output is forced and the host reports no input description
    (a count of zero, or a negative one), [RequestDataDescription] makes
    its two queries and nothing else, and returns [None]. *)
Theorem RequestDataDescription_forced_without_inputs :
  forall (St : Type) (host : St -> hostcall -> St * outcome) (s s1 s2 : St)
         (g : globals) (datadescription : pyval) (n : Z),
    host s (CallMethod datadescription "GetForceOutput" [] [])
      = (s1, Returned (VBool true)) ->
    host s1 (CallMethod datadescription "GetNumberOfInputDescriptions" [] [])
      = (s2, Returned (VInt n)) ->
    n <= 0 ->
    run host (RequestDataDescription g datadescription) s
    = ([ (CallMethod datadescription "GetForceOutput" [] [],
          Returned (VBool true));
         (CallMethod datadescription "GetNumberOfInputDescriptions" [] [],
          Returned (VInt n)) ],
       s2, Ok VNone).
Proof.
  intros St host s s1 s2 g dd n Hf Hn Hle.
  rewrite (run_RequestDataDescription_branch host g dd _ s s1 Hf).
  cbn [py_eq_True].
  unfold RequestDataDescription_forced, call_method. cbn [bind run].
  rewrite Hn. cbn [py_range].
  replace (Z.to_nat n) with 0%nat by lia. reflexivity.
Qed.

Lemma RequestDataDescription_forced_without_inputs_witness :
  (demo_host no_inputs 5%positive (CallMethod dd0 "GetForceOutput" [] [])
   = (5%positive, Returned (VBool true))
   /\ demo_host no_inputs 5%positive
        (CallMethod dd0 "GetNumberOfInputDescriptions" [] [])
      = (5%positive, Returned (VInt 0))
   /\ 0 <= 0)
  /\ result_of (run (demo_host no_inputs)
                  (RequestDataDescription demo_globals dd0) 5%positive)
     = Ok VNone.
Proof.
  split; [repeat split; reflexivity|].
  rewrite (RequestDataDescription_forced_without_inputs positive
             (demo_host no_inputs) 5%positive 5%positive 5%positive
             demo_globals dd0 0 eq_refl eq_refl (Z.le_refl 0)).
  reflexivity.
Defined.

(** X4.  When output is forced and what the host reports as the number
    of input descriptions is no integer ([None], a float, a string),
    [range] fails: the callback raises a [TypeError] after its two queries
    and requests nothing. *)
Theorem RequestDataDescription_forced_count_not_an_integer :
  forall (St : Type) (host : St -> hostcall -> St * outcome) (s s1 s2 : St)
         (g : globals) (datadescription n : pyval),
    host s (CallMethod datadescription "GetForceOutput" [] [])
      = (s1, Returned (VBool true)) ->
    host s1 (CallMethod datadescription "GetNumberOfInputDescriptions" [] [])
      = (s2, Returned n) ->
    n = VNone \/ (exists f, n = VFloat f) \/ (exists t, n = VStr t) ->
    run host (RequestDataDescription g datadescription) s
    = ([ (CallMethod datadescription "GetForceOutput" [] [],
          Returned (VBool true));
         (CallMethod datadescription "GetNumberOfInputDescriptions" [] [],
          Returned n) ],
       s2, Err (Exn "TypeError" n)).
Proof.
  intros St host s s1 s2 g dd n Hf Hn Hshape.
  rewrite (run_RequestDataDescription_branch host g dd _ s s1 Hf).
  cbn [py_eq_True].
  unfold RequestDataDescription_forced, call_method. cbn [bind run].
  rewrite Hn. destruct Hshape as [->|[[f ->]|[t ->]]]; reflexivity.
Qed.

Lemma RequestDataDescription_forced_count_not_an_integer_witness :
  (answering [("GetNumberOfInputDescriptions", VNone)] forced 5%positive
     (CallMethod dd0 "GetForceOutput" [] [])
   = (5%positive, Returned (VBool true))
   /\ answering [("GetNumberOfInputDescriptions", VNone)] forced 5%positive
        (CallMethod dd0 "GetNumberOfInputDescriptions" [] [])
      = (5%positive, Returned VNone))
  /\ result_of (run (answering [("GetNumberOfInputDescriptions", VNone)]
                       forced)
                  (RequestDataDescription demo_globals dd0) 5%positive)
     = Err (Exn "TypeError" VNone).
Proof.
  split; [split; reflexivity|].
  rewrite (RequestDataDescription_forced_count_not_an_integer positive
             (answering [("GetNumberOfInputDescriptions", VNone)] forced)
             5%positive 5%positive 5%positive demo_globals dd0 VNone
             eq_refl eq_refl (or_introl eq_refl)).
  reflexivity.
Defined.

(** X5.  The callbacks read the global [coprocessor] when they are
    called.  If the name is not bound, [DoCoProcessing] raises a
    [NameError] without making any host call, and
    [RequestDataDescription] raises it right after [GetForceOutput()]
    answered [False]; a forced request does not read the name and runs as
    it does with any other namespace. *)
Theorem callbacks_without_the_global_coprocessor :
  forall (St : Type) (host : St -> hostcall -> St * outcome) (s s1 : St)
         (g : globals) (datadescription : pyval) (b : bool),
    g !! "coprocessor" = None ->
    host s (CallMethod datadescription "GetForceOutput" [] [])
      = (s1, Returned (VBool b)) ->
    run host (DoCoProcessing g datadescription) s
      = ([], s, Err (Exn "NameError" (VStr "coprocessor")))
    /\ if b then
         forall g' : globals,
           run host (RequestDataDescription g datadescription) s
           = run host (RequestDataDescription g' datadescription) s
       else
         run host (RequestDataDescription g datadescription) s
         = ([ (CallMethod datadescription "GetForceOutput" [] [],
               Returned (VBool false)) ],
            s1, Err (Exn "NameError" (VStr "coprocessor"))).
Proof.
  intros St host s s1 g dd b Hg Hf. split.
  - unfold DoCoProcessing, get_global. rewrite Hg. reflexivity.
  - destruct b.
    + intros g'.
      now rewrite !(run_RequestDataDescription_branch host _ dd _ s s1 Hf).
    + rewrite (run_RequestDataDescription_branch host g dd _ s s1 Hf).
      cbn [py_eq_True].
      unfold RequestDataDescription_load, get_global. rewrite Hg.
      reflexivity.
Qed.

Lemma callbacks_without_the_global_coprocessor_witness :
  ((∅ : globals) !! "coprocessor" = None
   /\ demo_host quiet 5%positive (CallMethod dd0 "GetForceOutput" [] [])
      = (5%positive, Returned (VBool false)))
  /\ run (demo_host quiet) (DoCoProcessing ∅ dd0) 5%positive
     = ([], 5%positive, Err (Exn "NameError" (VStr "coprocessor"))).
Proof.
  split; [split; reflexivity|].
  exact (proj1 (callbacks_without_the_global_coprocessor positive
                  (demo_host quiet) 5%positive 5%positive ∅ dd0 false
                  eq_refl eq_refl)).
Defined.

(** ** Further properties of the construction and of the import *)

Lemma no_pipeline_store_in_construction (cop dd : pyval) :
  all_calls (fun c => is_pipeline_store c = false) (_CreatePipeline cop dd).
Proof. unfold _CreatePipeline. check_calls. Qed.

Lemma handler_free_CreatePipeline (self dd : pyval) :
  handler_free (CreatePipeline self dd).
Proof.
  unfold CreatePipeline, _CreatePipeline, call_fn, call_method, set_attr.
  cbn [bind]. repeat (constructor; intros ?).
Qed.

Lemma handler_free_CreateCoProcessor : handler_free CreateCoProcessor.
Proof.
  unfold CreateCoProcessor, call_fn, call_method.
  cbn [bind]. repeat (constructor; intros ?).
Qed.

(** X6.  [CreatePipeline] stores into [self.Pipeline] only a pipeline
    that was built to the end: in every run, a store of the attribute
    [Pipeline] is on [self], its value is the instance a completed
    [_CreatePipeline] returned, and it is the one call made after the
    calls of that construction.  A construction the host interrupts
    leaves [self.Pipeline] alone. *)
Theorem CreatePipeline_stores_only_a_complete_pipeline :
  forall (St : Type) (host : St -> hostcall -> St * outcome) (s : St)
         (self datadescription o v : pyval),
    let out := run host (CreatePipeline self datadescription) s in
    In (SetAttr o "Pipeline" v) (calls (trace_of out)) ->
    o = self
    /\ exists tr0 s0,
         run host (_CreatePipeline self datadescription) s = (tr0, s0, Ok v)
         /\ calls (trace_of out) = calls tr0 ++ [SetAttr self "Pipeline" v]
         /\ exists rv prod wr lut pwf disp bar,
              v = Pipeline_instance rv prod wr lut pwf disp bar.
Proof.
  intros St host s self dd o v out. subst out.
  unfold CreatePipeline. rewrite run_bind.
  pose proof (all_calls_run host _ _ s
                (no_pipeline_store_in_construction self dd)) as Hno.
  destruct (run host (_CreatePipeline self dd) s) as [[tr0 s0] [w|e]] eqn:E;
    unfold trace_of in *; cbn [fst snd] in *.
  - assert (Hstore :
      forall tr1 s1 r1,
        run host (set_attr self "Pipeline" w ;; Ret VNone) s0 = (tr1, s1, r1) ->
        calls tr1 = [SetAttr self "Pipeline" w]).
    { unfold set_attr. cbn [bind run].
      destruct (host s0 _) as [s1 [x|e]]; intros tr1 s1' r1 [= <- _ _];
        reflexivity. }
    destruct (run host (set_attr self "Pipeline" w ;; Ret VNone) s0)
      as [[tr1 s1] r1] eqn:E1.
    cbn [fst snd]. rewrite calls_app, (Hstore _ _ _ eq_refl).
    intros Hin. apply in_app_or in Hin as [Hin|[[= <- <-]|[]]].
    + rewrite List.Forall_forall in Hno. apply Hno in Hin. discriminate Hin.
    + split; [reflexivity|]. exists tr0, s0.
      split; [reflexivity|]. split; [reflexivity|].
      apply run_CreatePipeline_ok in E
        as (rv & prod & wr & lut & pwf & disp & bar & -> & _).
      now exists rv, prod, wr, lut, pwf, disp, bar.
  - intros Hin. rewrite List.Forall_forall in Hno. apply Hno in Hin.
    discriminate Hin.
Qed.

Lemma CreatePipeline_stores_only_a_complete_pipeline_witness :
  In (SetAttr cop0 "Pipeline"
        (Pipeline_instance (VObj 3) (VObj 4) (VObj 5) (VObj 6) (VObj 7)
           (VObj 8) (VObj 9)))
     (calls (trace_of (run (demo_host quiet) (CreatePipeline cop0 dd0)
                         2%positive)))
  /\ cop0 = cop0.
Proof.
  assert (H : In (SetAttr cop0 "Pipeline"
                    (Pipeline_instance (VObj 3) (VObj 4) (VObj 5) (VObj 6)
                       (VObj 7) (VObj 8) (VObj 9)))
                 (calls (trace_of (run (demo_host quiet)
                                     (CreatePipeline cop0 dd0) 2%positive)))).
  { vm_compute. tauto. }
  split; [exact H|].
  exact (proj1 (CreatePipeline_stores_only_a_complete_pipeline positive
                  (demo_host quiet) 2%positive cop0 dd0 cop0 _ H)).
Defined.

(** A construction the host interrupts at [RegisterView] ends there. *)
Example CreatePipeline_interrupted_run :
  let out := run (demo_host failing_view) (CreatePipeline cop0 dd0)
               2%positive in
  result_of out = Err (Exn "RuntimeError" (VStr "RegisterView"))
  /\ length (trace_of out) = 12%nat
  /\ filter is_pipeline_store (calls (trace_of out)) = [].
Proof. repeat split. Qed.

(** X7.  The pipeline construction and the creation of the coprocessor
    contain no [try] statement either: in every run of [CreatePipeline]
    and of [CreateCoProcessor] an exception of the host is the last event
    and is raised, unchanged, to the caller.  An import of the module that
    fails has failed either at one of its two [import] statements, with
    the exception of the module system and before any host call, or with
    the exception the last host call raised. *)
Theorem construction_does_not_handle_errors :
  forall (self datadescription : pyval),
    handler_free (CreatePipeline self datadescription)
    /\ handler_free CreateCoProcessor
    /\ forall (St : Type) (host : St -> hostcall -> St * outcome)
              (mods : module_system St) (s : St),
         propagates
           (trace_of (run host (CreatePipeline self datadescription) s))
           (result_of (run host (CreatePipeline self datadescription) s))
         /\ propagates (trace_of (run host CreateCoProcessor s))
                       (result_of (run host CreateCoProcessor s))
         /\ forall e,
              import_error (import_module host mods SimplePipeLine s)
                = Some e ->
              (import_trace (import_module host mods SimplePipeLine s) = []
               /\ import_statement_failed mods s e)
              \/ exists c,
                   last (import_trace
                           (import_module host mods SimplePipeLine s))
                   = Some (c, Raised e).
Proof.
  intros self dd. split; [apply handler_free_CreatePipeline|].
  split; [apply handler_free_CreateCoProcessor|].
  intros St host mods s. split; [|split].
  - apply handler_free_propagates, handler_free_CreatePipeline.
  - apply handler_free_propagates, handler_free_CreateCoProcessor.
  - intros e He. pose proof (import_SimplePipeLine_inv host mods s) as H.
    destruct (import_module host mods SimplePipeLine s)
      as [[[tr s1] g] e'].
    unfold import_error, import_trace in *; cbn [fst snd] in *. subst e'.
    exact (proj1 H).
Qed.

Lemma construction_does_not_handle_errors_witness :
  (import_error (import_module (demo_host failing_live) demo_modules
                   SimplePipeLine 1%positive)
   = Some (Exn "RuntimeError" (VStr "EnableLiveVisualization"))
   /\ import_error (import_module (demo_host quiet) no_modules
                      SimplePipeLine 1%positive)
      = Some (Exn "ImportError" (VStr "paraview.simple")))
  /\ ((import_trace (import_module (demo_host failing_live) demo_modules
                       SimplePipeLine 1%positive) = []
       /\ import_statement_failed demo_modules 1%positive
            (Exn "RuntimeError" (VStr "EnableLiveVisualization")))
      \/ exists c,
           last (import_trace (import_module (demo_host failing_live)
                                 demo_modules SimplePipeLine 1%positive))
           = Some (c, Raised (Exn "RuntimeError"
                                (VStr "EnableLiveVisualization"))))
  /\ ((import_trace (import_module (demo_host quiet) no_modules
                       SimplePipeLine 1%positive) = []
       /\ import_statement_failed no_modules 1%positive
            (Exn "ImportError" (VStr "paraview.simple")))
      \/ exists c,
           last (import_trace (import_module (demo_host quiet) no_modules
                                 SimplePipeLine 1%positive))
           = Some (c, Raised (Exn "ImportError" (VStr "paraview.simple")))).
Proof.
  split; [split; reflexivity|].
  destruct (construction_does_not_handle_errors cop0 dd0) as (_ & _ & H).
  split.
  - destruct (H positive (demo_host failing_live) demo_modules 1%positive)
      as (_ & _ & Hi).
    exact (Hi _ eq_refl).
  - destruct (H positive (demo_host quiet) no_modules 1%positive)
      as (_ & _ & Hi).
    exact (Hi _ eq_refl).
Defined.

(** An import without the host library fails at line 2, before any host
    call, and binds nothing. *)
Example import_without_paraview :
  import_module (demo_host quiet) no_modules SimplePipeLine 1%positive
  = ([], 1%positive, fresh_module,
     Some (Exn "ImportError" (VStr "paraview.simple"))).
Proof. reflexivity. Qed.

Lemma bind_all_other (bs : list (string * pyval)) (g : globals)
    (name : string) :
  (forall v, ~ In (name, v) bs) -> bind_all bs g !! name = g !! name.
Proof.
  revert g. induction bs as [|[n v] bs IH]; intros g Hn; [reflexivity|].
  cbn [bind_all]. rewrite IH.
  - apply lookup_insert_ne. intros ->. apply (Hn v). left. reflexivity.
  - intros w Hw. apply (Hn w). right. exact Hw.
Qed.

Lemma import_SimplePipeLine_failed {St : Type}
    (host : St -> hostcall -> St * outcome) (mods : module_system St)
    (s : St) (name : string) :
  ~ In name ["coprocessing"; "CreateCoProcessor"; "coprocessor"] ->
  initial_namespace mods !! name = None ->
  (forall s1 bs v,
     import_star mods s "paraview.simple" = (s1, Imported bs) ->
     ~ In (name, v) bs) ->
  let '(_, _, g, e) := import_module host mods SimplePipeLine s in
  e <> None -> g !! name = None.
Proof.
  intros Hn Hfresh Hstar.
  unfold import_module, SimplePipeLine, CreateCoProcessor, call_fn, call_method.
  cbn [exec_module].
  destruct (import_star mods s _) as [s01 [bs|e]] eqn:Estar;
    [|intros _; exact Hfresh].
  assert (Hbs : bind_all bs (initial_namespace mods) !! name = None).
  { rewrite bind_all_other; [exact Hfresh|].
    intros v. exact (Hstar s01 bs v eq_refl). }
  destruct (import_name mods s01 _ _) as [s02 [v|e]];
    [|intros _; exact Hbs].
  unfold get_global at 1. rewrite lookup_insert_eq.
  cbn [args0 bind run].
  assert (H1 : (<["CreateCoProcessor" := VFun "CreateCoProcessor"]>
                  (<["coprocessing" := v]>
                     (bind_all bs (initial_namespace mods)))) !! name = None).
  { rewrite !lookup_insert_ne; [exact Hbs|..];
      intros <-; apply Hn; simpl; tauto. }
  destruct (host s02 _) as [s1 [cop|e1]]; [|intros _; exact H1].
  destruct (host s1 _) as [s2 [x|e1]]; [|intros _; exact H1].
  cbn [app]. unfold get_global. rewrite lookup_insert_eq. cbn [bind run].
  destruct (host s2 _) as [s3 [y|e1]].
  - intros H. now destruct H.
  - intros _. rewrite lookup_insert_ne; [exact H1|].
    intros <-. apply Hn; simpl; tauto.
Qed.

(** X8.  The callbacks are defined after the coprocessor is created and
    live visualization is enabled: an import that fails, at an [import]
    statement or at a host call, leaves neither [RequestDataDescription]
    nor [DoCoProcessing] in the namespace of the module, so that calling
    either by name is a [NameError].  (A fresh module holds no such name
    and the host library exports none: these are the hypotheses on the
    module system.) *)
Theorem failed_import_defines_no_callback :
  forall (St : Type) (host : St -> hostcall -> St * outcome)
         (mods : module_system St) (s : St) (e : exn),
    initial_namespace mods !! "RequestDataDescription" = None ->
    initial_namespace mods !! "DoCoProcessing" = None ->
    (forall s1 bs v,
       import_star mods s "paraview.simple" = (s1, Imported bs) ->
       ~ In ("RequestDataDescription", v) bs
       /\ ~ In ("DoCoProcessing", v) bs) ->
    let out := import_module host mods SimplePipeLine s in
    import_error out = Some e ->
    import_globals out !! "RequestDataDescription" = None
    /\ import_globals out !! "DoCoProcessing" = None
    /\ forall datadescription,
         invoke SimplePipeLine (import_globals out) "RequestDataDescription"
           [datadescription]
         = Raise (Exn "NameError" (VStr "RequestDataDescription"))
         /\ invoke SimplePipeLine (import_globals out) "DoCoProcessing"
              [datadescription]
            = Raise (Exn "NameError" (VStr "DoCoProcessing")).
Proof.
  intros St host mods s e Hfr Hfd Hstar out He.
  assert (Hr := import_SimplePipeLine_failed host mods s
                  "RequestDataDescription").
  assert (Hd := import_SimplePipeLine_failed host mods s "DoCoProcessing").
  fold out in Hr, Hd. destruct out as [[[tr s1] g] e'].
  unfold import_error, import_globals in *; cbn [fst snd] in *. subst e'.
  assert (Hr' : g !! "RequestDataDescription" = None).
  { apply Hr; [|exact Hfr
               |intros s1' bs v Hs; exact (proj1 (Hstar s1' bs v Hs))
               |discriminate].
    simpl. intros [H|[H|[H|[]]]]; discriminate H. }
  assert (Hd' : g !! "DoCoProcessing" = None).
  { apply Hd; [|exact Hfd
               |intros s1' bs v Hs; exact (proj2 (Hstar s1' bs v Hs))
               |discriminate].
    simpl. intros [H|[H|[H|[]]]]; discriminate H. }
  split; [exact Hr'|]. split; [exact Hd'|].
  intros dd. unfold invoke. now rewrite Hr', Hd'.
Qed.

Lemma failed_import_defines_no_callback_witness :
  (initial_namespace demo_modules !! "RequestDataDescription" = None
   /\ initial_namespace demo_modules !! "DoCoProcessing" = None
   /\ (forall s1 bs v,
      import_star demo_modules 1%positive "paraview.simple"
        = (s1, Imported bs) ->
      ~ In ("RequestDataDescription", v) bs /\ ~ In ("DoCoProcessing", v) bs)
   /\ import_error (import_module (demo_host failing_live) demo_modules
                      SimplePipeLine 1%positive)
      = Some (Exn "RuntimeError" (VStr "EnableLiveVisualization")))
  /\ import_globals (import_module (demo_host failing_live) demo_modules
                       SimplePipeLine 1%positive) !! "DoCoProcessing" = None.
Proof.
  assert (H : forall s1 bs v,
            import_star demo_modules 1%positive "paraview.simple"
              = (s1, Imported bs) ->
            ~ In ("RequestDataDescription", v) bs
            /\ ~ In ("DoCoProcessing", v) bs).
  { intros s1 bs v [= _ <-].
    split; simpl; intros Hin; decompose [or] Hin; try discriminate;
      assumption. }
  split; [split; [reflexivity|split; [reflexivity|split; [exact H|reflexivity]]]|].
  exact (proj1 (proj2 (failed_import_defines_no_callback positive
                         (demo_host failing_live) demo_modules 1%positive
                         _ eq_refl eq_refl H eq_refl))).
Defined.

Ltac stop_here :=
  do 7 eexists; unfold trace_of, result_of, calls, _CreatePipeline_calls;
  cbn [fst snd map]; split;
  [ eexists; cbn [app]; reflexivity
  | let v := fresh "v" in let H := fresh "H" in
    intros v H;
    first [ discriminate H
          | injection H as <-; split; reflexivity ] ].

(** X9.  [_CreatePipeline] never skips or reorders a step: the calls of
    every run, also of one the host interrupts, are an initial part of the
    29 calls of the construction (view, its nine properties, its
    registration, producer, writer, its registration, the two transfer
    functions with their properties, the display with its properties, the
    scalar bar with its title), each object used being the same
    throughout; a run that returns has made all of them and returns the
    instance holding the seven objects. *)
Theorem CreatePipeline_never_skips_a_step :
  forall (St : Type) (host : St -> hostcall -> St * outcome) (s : St)
         (coprocessor datadescription : pyval),
    exists rv prod wr lut pwf disp bar,
      calls (trace_of (run host (_CreatePipeline coprocessor datadescription) s))
        `prefix_of`
        _CreatePipeline_calls coprocessor datadescription
          rv prod wr lut pwf disp bar
      /\ forall v,
           result_of (run host (_CreatePipeline coprocessor datadescription) s)
             = Ok v ->
           calls (trace_of
                    (run host (_CreatePipeline coprocessor datadescription) s))
             = _CreatePipeline_calls coprocessor datadescription
                 rv prod wr lut pwf disp bar
           /\ v = Pipeline_instance rv prod wr lut pwf disp bar.
Proof.
  intros St host s cop dd.
  unfold _CreatePipeline, call_fn, call_method, set_attr. cbn [bind run].
  do 29 (destruct (host _ _) as [? [?|?]]; cbn [run]; [|stop_here]).
  stop_here.
  Unshelve. all: exact VNone.
Qed.

Lemma CreatePipeline_never_skips_a_step_witness :
  result_of (run (demo_host quiet) (_CreatePipeline cop0 dd0) 2%positive)
    = Ok (Pipeline_instance (VObj 3) (VObj 4) (VObj 5) (VObj 6) (VObj 7)
            (VObj 8) (VObj 9))
  /\ exists rv prod wr lut pwf disp bar,
       calls (trace_of (run (demo_host quiet) (_CreatePipeline cop0 dd0)
                          2%positive))
       = _CreatePipeline_calls cop0 dd0 rv prod wr lut pwf disp bar.
Proof.
  split; [reflexivity|].
  destruct (CreatePipeline_never_skips_a_step positive (demo_host quiet)
              2%positive cop0 dd0)
    as (rv & prod & wr & lut & pwf & disp & bar & _ & H).
  exists rv, prod, wr, lut, pwf, disp, bar.
  exact (proj1 (H _ eq_refl)).
Defined.

(** X10.  End to end: after an import that completes, calling
    [DoCoProcessing] by name with one data description makes the four
    calls of the callback on the very object the constructor returned
    during the import (an initial part of them if the host interrupts, all
    of them if the callback returns), and calling
    [RequestDataDescription] when output is not forced asks that same
    object to [LoadRequestedData]; called with any number of arguments
    other than one (none, two, more), either callback is a [TypeError] and
    no host call is made. *)
Theorem imported_callbacks_drive_the_created_coprocessor :
  forall (St : Type) (host : St -> hostcall -> St * outcome)
         (mods : module_system St) (s : St),
    let out := import_module host mods SimplePipeLine s in
    let g := import_globals out in
    import_error out = None ->
    exists cop,
      In (CallFn "CoProcessor" [] [], Returned cop) (import_trace out)
      /\ forall (St' : Type) (host' : St' -> hostcall -> St' * outcome)
                (s' s1 : St') (dd : pyval),
           (let run' := run host' (invoke SimplePipeLine g "DoCoProcessing"
                                     [dd]) s' in
            calls (trace_of run') `prefix_of` DoCoProcessing_calls cop dd
            /\ (forall v, result_of run' = Ok v ->
                  calls (trace_of run') = DoCoProcessing_calls cop dd))
           /\ (host' s' (CallMethod dd "GetForceOutput" [] [])
                 = (s1, Returned (VBool false)) ->
               calls (trace_of
                  (run host' (invoke SimplePipeLine g "RequestDataDescription"
                                [dd]) s'))
               = [ CallMethod dd "GetForceOutput" [] [];
                   CallMethod cop "LoadRequestedData" [dd] [] ])
           /\ forall args : list pyval,
                length args <> 1%nat ->
                run host' (invoke SimplePipeLine g "DoCoProcessing" args) s'
                  = ([], s', Err (Exn "TypeError" (VList args)))
                /\ run host' (invoke SimplePipeLine g "RequestDataDescription"
                                args) s'
                   = ([], s', Err (Exn "TypeError" (VList args))).
Proof.
  intros St host mods s out g He. subst g.
  pose proof (import_SimplePipeLine_inv host mods s) as H. fold out in H.
  destruct out as [[[tr s0] g] e].
  unfold import_error, import_globals, import_trace in *; cbn [fst snd] in *.
  subst e. destruct H as (s01 & bs & s02 & w & cop & _ & _ & Hin & _ & ->).
  exists cop. split; [exact Hin|].
  intros St' host' s' s1 dd.
  rewrite invoke_DoCoProcessing, invoke_RequestDataDescription.
  split; [|split].
  - destruct (run_DoCoProcessing host' _ cop dd s'
                (module_namespace_coprocessor
                   (imported_names (initial_namespace mods) bs w) cop))
      as [[Hr Hc]|(c & e & k & Hr & _ & Hk & _)].
    + rewrite Hc. split; [reflexivity|]. intros _ _. reflexivity.
    + split; [exists k; exact Hk|]. rewrite Hr. intros v [=].
  - intros Hf.
    rewrite (run_RequestDataDescription_branch host' _ dd _ s' s1 Hf).
    cbn [py_eq_True].
    unfold RequestDataDescription_load, get_global, call_method.
    rewrite module_namespace_coprocessor.
    cbn [bind run]. destruct (host' s1 _) as [s2 [v|e]]; reflexivity.
  - intros args Hlen. unfold invoke.
    rewrite module_namespace_DoCoProcessing,
      module_namespace_RequestDataDescription.
    destruct args as [|a [|b args]]; [| now destruct Hlen |];
      split; reflexivity.
Qed.

Lemma imported_callbacks_drive_the_created_coprocessor_witness :
  import_error (import_module (demo_host quiet) demo_modules SimplePipeLine
                  1%positive)
    = None
  /\ exists cop,
       In (CallFn "CoProcessor" [] [], Returned cop)
          (import_trace (import_module (demo_host quiet) demo_modules
                           SimplePipeLine 1%positive))
       /\ calls (trace_of
            (run (demo_host quiet)
               (invoke SimplePipeLine demo_globals "DoCoProcessing" [dd0])
               5%positive))
          = DoCoProcessing_calls cop dd0
       /\ run (demo_host quiet)
            (invoke SimplePipeLine demo_globals "RequestDataDescription" [])
            5%positive
          = ([], 5%positive, Err (Exn "TypeError" (VList []))).
Proof.
  split; [reflexivity|].
  destruct (imported_callbacks_drive_the_created_coprocessor positive
              (demo_host quiet) demo_modules 1%positive eq_refl)
    as (cop & Hin & H).
  exists cop. split; [exact Hin|].
  destruct (H positive (demo_host quiet) 5%positive 5%positive dd0)
    as ((_ & Hok) & _ & Harity).
  split; [exact (Hok VNone eq_refl)|].
  exact (proj2 (Harity [] (fun H0 : length (@nil pyval) = 1%nat =>
                             O_S 0 H0))).
Defined.

(** ** [RequestDataDescription], branch by branch *)

Section Branches.
Context {St : Type}.
Variable host : St -> hostcall -> St * outcome.

(** The forced branch, from the state [s1] in which [GetForceOutput()]
    left the host; [first] is the event of that call. *)
Lemma run_RequestDataDescription_forced (dd : pyval) (s1 : St)
    (first : event) :
  method_named "LoadRequestedData" first.1 = false ->
  let out := (let '(tr, s', r) := run host (RequestDataDescription_forced dd) s1
              in (first :: tr, s', r)) in
  Forall (fun c => method_named "LoadRequestedData" c = false)
         (calls (trace_of out))
  /\ match host s1 (CallMethod dd "GetNumberOfInputDescriptions" [] []) with
     | (s2, Raised e) =>
         out = ([ first;
                  (CallMethod dd "GetNumberOfInputDescriptions" [] [],
                   Raised e) ], s2, Err e)
     | (s2, Returned n) =>
         match py_range n with
         | None =>
             out = ([ first;
                      (CallMethod dd "GetNumberOfInputDescriptions" [] [],
                       Returned n) ], s2, Err (Exn "TypeError" n))
         | Some indices =>
             (forall k, n = VInt k ->
                indices = map Z.of_nat (seq 0 (Z.to_nat k)))
             /\ exists rest,
                  trace_of out
                  = first
                    :: (CallMethod dd "GetNumberOfInputDescriptions" [] [],
                        Returned n)
                    :: rest
                  /\ omap method_and_args (calls rest)
                       `prefix_of` flat_map requests_of indices
                  /\ match result_of out with
                     | Ok v => v = VNone /\ requests_all dd indices rest
                     | Err e => exists c, last rest = Some (c, Raised e)
                     end
         end
     end.
Proof.
  intros Hfirst. unfold RequestDataDescription_forced, call_method.
  cbn [bind run].
  destruct (host s1 _) as [s2 [n|e]].
  2:{ split; [|reflexivity]. repeat constructor. exact Hfirst. }
  destruct (py_range n) as [indices|] eqn:Hn.
  2:{ split; [|reflexivity]. repeat constructor. exact Hfirst. }
  rewrite run_bind.
  pose proof (run_request_loop host dd indices s2) as Hloop.
  pose proof (all_calls_run host
                (fun c => method_named "LoadRequestedData" c = false)
                (for_each indices (RequestDataDescription_loop_body dd)) s2)
    as Hall.
  pose proof (projects_run host method_and_args _ _ s2
                (projects_request_loop dd indices)) as [Hpre _].
  cbv zeta in Hloop.
  assert (Hno : Forall (fun c => method_named "LoadRequestedData" c = false)
                  (calls (trace_of
                     (run host (for_each indices
                                  (RequestDataDescription_loop_body dd)) s2)))).
  { apply Hall, all_calls_request_loop.
    intros [| ? m ? ? |]; simpl; try discriminate.
    intros Hm. destruct (String.eqb_spec m "LoadRequestedData") as [->|];
      [discriminate Hm|reflexivity]. }
  clear Hall.
  destruct (run host (for_each indices _) s2) as [[tr s3] [v|e]];
    unfold trace_of, result_of in *; cbn [fst snd run] in *.
  - rewrite app_nil_r. destruct Hloop as [-> Hloop]. split; [|split].
    + constructor; [exact Hfirst|]. constructor; [reflexivity|exact Hno].
    + intros k ->. cbn in Hn. now injection Hn as <-.
    + exists tr. repeat split; assumption.
  - split; [|split].
    + constructor; [exact Hfirst|]. constructor; [reflexivity|exact Hno].
    + intros k ->. cbn in Hn. now injection Hn as <-.
    + exists tr. repeat split; assumption.
Qed.

(** The other branch. *)
Lemma run_RequestDataDescription_load (g : globals) (cop dd : pyval)
    (s1 : St) (first : event) :
  g !! "coprocessor" = Some cop ->
  let out := (let '(tr, s', r) := run host (RequestDataDescription_load g dd) s1
              in (first :: tr, s', r)) in
  match host s1 (CallMethod cop "LoadRequestedData" [dd] []) with
  | (s2, Returned v) =>
      out = ([ first; (CallMethod cop "LoadRequestedData" [dd] [], Returned v) ],
             s2, Ok VNone)
  | (s2, Raised e) =>
      out = ([ first; (CallMethod cop "LoadRequestedData" [dd] [], Raised e) ],
             s2, Err e)
  end.
Proof.
  intros Hg. unfold RequestDataDescription_load, get_global, call_method.
  rewrite Hg. cbn [bind run].
  destruct (host s1 _) as [s2 [v|e]]; reflexivity.
Qed.
End Branches.

(** C7.  Take any host and any data description whose [GetForceOutput()]
    answers with a boolean.

    If it answers [True], [RequestDataDescription] never calls
    [LoadRequestedData].  Its second call is
    [GetNumberOfInputDescriptions()]; when that answers the integer [k],
    the callback goes through the indices [0 .. k-1] in order and, for
    each, fetches the input description and calls [AllFieldsOn()] on what
    it got, fetches it again and calls [GenerateMeshOn()] on what it got:
    a run that returns has made exactly these calls and returns [None], and
    a run that does not return has made an initial part of them and ended
    at a host call that raised.  (When the count query itself raises, or
    answers what [range] does not take, the callback ends there with that
    exception or a [TypeError].)

    If it answers [False], the callback makes exactly one more call,
    [coprocessor.LoadRequestedData(datadescription)] on the global
    coprocessor, returns [None] when that returns and raises what it
    raised otherwise; it touches no input description. *)
Theorem RequestDataDescription_force_or_load :
  forall (St : Type) (host : St -> hostcall -> St * outcome) (s s1 : St)
         (g : globals) (coprocessor datadescription : pyval) (b : bool),
    g !! "coprocessor" = Some coprocessor ->
    host s (CallMethod datadescription "GetForceOutput" [] [])
      = (s1, Returned (VBool b)) ->
    let out := run host (RequestDataDescription g datadescription) s in
    let first := (CallMethod datadescription "GetForceOutput" [] [],
                  Returned (VBool b)) in
    if b then
      Forall (fun c => method_named "LoadRequestedData" c = false)
             (calls (trace_of out))
      /\ match host s1 (CallMethod datadescription
                          "GetNumberOfInputDescriptions" [] []) with
         | (s2, Raised e) =>
             out = ([ first;
                      (CallMethod datadescription
                         "GetNumberOfInputDescriptions" [] [], Raised e) ],
                    s2, Err e)
         | (s2, Returned n) =>
             match py_range n with
             | None =>
                 out = ([ first;
                          (CallMethod datadescription
                             "GetNumberOfInputDescriptions" [] [],
                           Returned n) ],
                        s2, Err (Exn "TypeError" n))
             | Some indices =>
                 (forall k, n = VInt k ->
                    indices = map Z.of_nat (seq 0 (Z.to_nat k)))
                 /\ exists rest,
                      trace_of out
                      = first
                        :: (CallMethod datadescription
                              "GetNumberOfInputDescriptions" [] [],
                            Returned n)
                        :: rest
                      /\ omap method_and_args (calls rest)
                           `prefix_of` flat_map requests_of indices
                      /\ match result_of out with
                         | Ok v =>
                             v = VNone
                             /\ requests_all datadescription indices rest
                         | Err e => exists c, last rest = Some (c, Raised e)
                         end
             end
         end
    else
      match host s1 (CallMethod coprocessor "LoadRequestedData"
                       [datadescription] []) with
      | (s2, Returned v) =>
          out = ([ first;
                   (CallMethod coprocessor "LoadRequestedData"
                      [datadescription] [], Returned v) ],
                 s2, Ok VNone)
      | (s2, Raised e) =>
          out = ([ first;
                   (CallMethod coprocessor "LoadRequestedData"
                      [datadescription] [], Raised e) ],
                 s2, Err e)
      end.
Proof.
  intros St host s s1 g cop dd b Hg Hf out first. subst out first.
  rewrite (run_RequestDataDescription_branch host g dd _ s s1 Hf).
  cbn [py_eq_True]. destruct b.
  - exact (run_RequestDataDescription_forced host dd s1
             (CallMethod dd "GetForceOutput" [] [], Returned (VBool true))
             eq_refl).
  - exact (run_RequestDataDescription_load host g cop dd s1
             (CallMethod dd "GetForceOutput" [] [], Returned (VBool false))
             Hg).
Qed.

Lemma RequestDataDescription_force_or_load_witness :
  (demo_globals !! "coprocessor" = Some cop0
   /\ demo_host forced 5%positive (CallMethod dd0 "GetForceOutput" [] [])
      = (5%positive, Returned (VBool true))
   /\ exists rest,
        trace_of (run (demo_host forced)
                    (RequestDataDescription demo_globals dd0) 5%positive)
        = (CallMethod dd0 "GetForceOutput" [] [], Returned (VBool true))
          :: (CallMethod dd0 "GetNumberOfInputDescriptions" [] [],
              Returned (VInt 2))
          :: rest
        /\ requests_all dd0 [0; 1] rest)
  /\ (demo_host quiet 5%positive (CallMethod dd0 "GetForceOutput" [] [])
      = (5%positive, Returned (VBool false))
      /\ run (demo_host quiet) (RequestDataDescription demo_globals dd0)
           5%positive
         = ([ (CallMethod dd0 "GetForceOutput" [] [], Returned (VBool false));
              (CallMethod cop0 "LoadRequestedData" [dd0] [], Returned VNone) ],
            5%positive, Ok VNone)).
Proof.
  split.
  - split; [reflexivity|]. split; [reflexivity|].
    pose proof (RequestDataDescription_force_or_load positive
                  (demo_host forced) 5%positive 5%positive demo_globals
                  cop0 dd0 true eq_refl eq_refl) as H.
    cbv zeta in H. destruct H as [_ H].
    change (demo_host forced 5%positive
              (CallMethod dd0 "GetNumberOfInputDescriptions" [] []))
      with (5%positive, Returned (VInt 2)) in H.
    cbv iota beta in H.
    change (py_range (VInt 2)) with (Some [0; 1]) in H.
    cbv iota beta in H.
    destruct H as (_ & rest & Htr & _ & Hres).
    change (result_of (run (demo_host forced)
                         (RequestDataDescription demo_globals dd0)
                         5%positive))
      with (Ok VNone) in Hres.
    exists rest. split; [exact Htr|exact (proj2 Hres)].
  - split; [reflexivity|].
    exact (RequestDataDescription_force_or_load positive
             (demo_host quiet) 5%positive 5%positive demo_globals
             cop0 dd0 false eq_refl eq_refl).
Defined.

(** X1.  The branch of [RequestDataDescription] is chosen by equality
    with [True], not by truth.  When [GetForceOutput()] answers the
    integer [1] the callback takes the forced branch: it never calls
    [LoadRequestedData], its second call is
    [GetNumberOfInputDescriptions()], and for a count [k] it goes through
    the input descriptions [0 .. k-1] exactly as it does when the answer is
    [True].  When it answers any other integer, a non-zero one like [2]
    included, the callback makes exactly one more call,
    [coprocessor.LoadRequestedData(datadescription)]. *)
Theorem RequestDataDescription_compares_with_True :
  forall (St : Type) (host : St -> hostcall -> St * outcome) (s s1 : St)
         (g : globals) (coprocessor datadescription : pyval) (z : Z),
    g !! "coprocessor" = Some coprocessor ->
    host s (CallMethod datadescription "GetForceOutput" [] [])
      = (s1, Returned (VInt z)) ->
    let out := run host (RequestDataDescription g datadescription) s in
    let first := (CallMethod datadescription "GetForceOutput" [] [],
                  Returned (VInt z)) in
    if z =? 1 then
      Forall (fun c => method_named "LoadRequestedData" c = false)
             (calls (trace_of out))
      /\ match host s1 (CallMethod datadescription
                          "GetNumberOfInputDescriptions" [] []) with
         | (s2, Raised e) =>
             out = ([ first;
                      (CallMethod datadescription
                         "GetNumberOfInputDescriptions" [] [], Raised e) ],
                    s2, Err e)
         | (s2, Returned n) =>
             match py_range n with
             | None =>
                 out = ([ first;
                          (CallMethod datadescription
                             "GetNumberOfInputDescriptions" [] [],
                           Returned n) ],
                        s2, Err (Exn "TypeError" n))
             | Some indices =>
                 (forall k, n = VInt k ->
                    indices = map Z.of_nat (seq 0 (Z.to_nat k)))
                 /\ exists rest,
                      trace_of out
                      = first
                        :: (CallMethod datadescription
                              "GetNumberOfInputDescriptions" [] [],
                            Returned n)
                        :: rest
                      /\ omap method_and_args (calls rest)
                           `prefix_of` flat_map requests_of indices
                      /\ match result_of out with
                         | Ok v =>
                             v = VNone
                             /\ requests_all datadescription indices rest
                         | Err e => exists c, last rest = Some (c, Raised e)
                         end
             end
         end
    else
      match host s1 (CallMethod coprocessor "LoadRequestedData"
                       [datadescription] []) with
      | (s2, Returned v) =>
          out = ([ first;
                   (CallMethod coprocessor "LoadRequestedData"
                      [datadescription] [], Returned v) ],
                 s2, Ok VNone)
      | (s2, Raised e) =>
          out = ([ first;
                   (CallMethod coprocessor "LoadRequestedData"
                      [datadescription] [], Raised e) ],
                 s2, Err e)
      end.
Proof.
  intros St host s s1 g cop dd z Hg Hf out first. subst out first.
  rewrite (run_RequestDataDescription_branch host g dd _ s s1 Hf).
  cbn [py_eq_True]. destruct (z =? 1).
  - exact (run_RequestDataDescription_forced host dd s1
             (CallMethod dd "GetForceOutput" [] [], Returned (VInt z))
             eq_refl).
  - exact (run_RequestDataDescription_load host g cop dd s1
             (CallMethod dd "GetForceOutput" [] [], Returned (VInt z))
             Hg).
Qed.

Lemma RequestDataDescription_compares_with_True_witness :
  (demo_globals !! "coprocessor" = Some cop0
   /\ answering [("GetForceOutput", VInt 1)] forced 5%positive
        (CallMethod dd0 "GetForceOutput" [] [])
      = (5%positive, Returned (VInt 1))
   /\ exists rest,
        trace_of (run (answering [("GetForceOutput", VInt 1)] forced)
                    (RequestDataDescription demo_globals dd0) 5%positive)
        = (CallMethod dd0 "GetForceOutput" [] [], Returned (VInt 1))
          :: (CallMethod dd0 "GetNumberOfInputDescriptions" [] [],
              Returned (VInt 2))
          :: rest
        /\ requests_all dd0 [0; 1] rest)
  /\ (answering [("GetForceOutput", VInt 2)] quiet 5%positive
        (CallMethod dd0 "GetForceOutput" [] [])
      = (5%positive, Returned (VInt 2))
      /\ run (answering [("GetForceOutput", VInt 2)] quiet)
           (RequestDataDescription demo_globals dd0) 5%positive
         = ([ (CallMethod dd0 "GetForceOutput" [] [], Returned (VInt 2));
              (CallMethod cop0 "LoadRequestedData" [dd0] [], Returned VNone) ],
            5%positive, Ok VNone)).
Proof.
  split.
  - split; [reflexivity|]. split; [reflexivity|].
    pose proof (RequestDataDescription_compares_with_True positive
                  (answering [("GetForceOutput", VInt 1)] forced)
                  5%positive 5%positive demo_globals cop0 dd0 1
                  eq_refl eq_refl) as H.
    cbv zeta in H.
    change (1 =? 1) with true in H. cbv iota beta in H.
    destruct H as [_ H].
    change (answering [("GetForceOutput", VInt 1)] forced 5%positive
              (CallMethod dd0 "GetNumberOfInputDescriptions" [] []))
      with (5%positive, Returned (VInt 2)) in H.
    cbv iota beta in H.
    change (py_range (VInt 2)) with (Some [0; 1]) in H.
    cbv iota beta in H.
    destruct H as (_ & rest & Htr & _ & Hres).
    change (result_of (run (answering [("GetForceOutput", VInt 1)] forced)
                         (RequestDataDescription demo_globals dd0)
                         5%positive))
      with (Ok VNone) in Hres.
    exists rest. split; [exact Htr|exact (proj2 Hres)].
  - split; [reflexivity|].
    exact (RequestDataDescription_compares_with_True positive
             (answering [("GetForceOutput", VInt 2)] quiet) 5%positive
             5%positive demo_globals cop0 dd0 2 eq_refl eq_refl).
Defined.
